(** * pix-backend-function: the Netlify function that creates a PIX charge

    A shallow embedding of [src/functions/pix-backend-function.js]: the
    module-level token cache, [authenticate] and [exports.handler], written
    in a state-and-exception monad over the process state, followed by the
    properties of the handler's responses.

    What the JavaScript runtime, [node-fetch] and the network contribute is
    collected in the class [Env]; the program is written against it. *)

From Stdlib Require Import String Ascii List Bool ZArith NArith Lia DecimalString.
From Stdlib Require Import Floats.PrimFloat.
Import ListNotations.
Local Open Scope string_scope.
Set Warnings "-register-all".

(** ** JavaScript values *)

(** The values the function handles: what [JSON.parse] produces, plus
    [undefined].  Numbers are IEEE doubles ([JSON.parse] yields an infinity
    for a numeral beyond their range, and [-0] for [-0]).  A string is held
    as its UTF-8 bytes.  An object is the list of its own properties, with
    distinct keys, in the order the engine enumerates them. *)
Inductive value : Type :=
| VUndefined
| VNull
| VBool (b : bool)
| VNum (x : float)
| VStr (s : string)
| VArr (items : list value)
| VObj (props : list (string * value)).

(** ToBoolean: [undefined], [null], [false], [0], [-0], [NaN] and the empty
    string are falsy, everything else is truthy. *)
Definition truthy (v : value) : bool :=
  match v with
  | VUndefined | VNull => false
  | VBool b => b
  | VNum x => negb (PrimFloat.is_zero x || PrimFloat.is_nan x)
  | VStr s => negb (s =? "")
  | VArr _ | VObj _ => true
  end.

Definition nullish (v : value) : bool :=
  match v with
  | VUndefined | VNull => true
  | _ => false
  end.

Fixpoint lookup {A : Type} (k : string) (ps : list (string * A)) : option A :=
  match ps with
  | [] => None
  | (k', v) :: rest => if k' =? k then Some v else lookup k rest
  end.

(** [prop v k] is [v.k] for a [v] that is neither [null] nor [undefined], and
    for a name [k] that no prototype defines (the function reads only
    [amount], [external_id], [payer], [token], [access_token], [error],
    [message], [transaction_id], [qr_code_image], [pix_code] and [status]):
    an absent property, or any property of a primitive or an array, reads as
    [undefined]. *)
Definition prop (v : value) (k : string) : value :=
  match v with
  | VObj ps => match lookup k ps with Some x => x | None => VUndefined end
  | _ => VUndefined
  end.

(** SerializeJSONProperty, the structural half of [JSON.stringify], as the
    document its text denotes: a property whose value is [undefined] is left
    out of an object, an [undefined] array element is written [null], and so
    is a number that is not finite; [-0] is written [0].  [None] is
    [JSON.stringify]'s [undefined]. *)
Fixpoint serialize (v : value) : option value :=
  match v with
  | VUndefined => None
  | VNull => Some VNull
  | VBool b => Some (VBool b)
  | VNum x =>
      Some (if PrimFloat.is_nan x || PrimFloat.is_infinity x then VNull
            else if PrimFloat.is_zero x then VNum PrimFloat.zero
            else VNum x)
  | VStr s => Some (VStr s)
  | VArr items =>
      Some (VArr (map (fun x => match serialize x with
                                | Some j => j
                                | None => VNull
                                end) items))
  | VObj props =>
      Some (VObj ((fix members (ps : list (string * value)) :=
                     match ps with
                     | [] => []
                     | (k, x) :: rest =>
                         match serialize x with
                         | Some j => (k, j) :: members rest
                         | None => members rest
                         end
                     end) props))
  end.

Fixpoint serialize_members (ps : list (string * value)) : list (string * value) :=
  match ps with
  | [] => []
  | (k, x) :: rest =>
      match serialize x with
      | Some j => (k, j) :: serialize_members rest
      | None => serialize_members rest
      end
  end.

(** A text the function writes: a literal string, or the JSON text of a
    document ([JSON.stringify]'s output, kept as the document it denotes). *)
Inductive text : Type :=
| Plain (s : string)
| Document (j : value).

(** [JSON.stringify({k1: v1, ...})] for an object literal with the given
    properties. *)
Definition JSON_stringify (props : list (string * value)) : text :=
  Document (VObj (serialize_members props)).

(** ** Errors *)

(** The errors the runtime and [node-fetch] raise. *)
Inductive runtime_error : Type :=
| SyntaxError_JSON (source : string)
| TypeError_nullish (v : value) (k : string)
| TypeError_primitive (v : value)
| TypeError_header (content : string)
| TypeError_body_used (url : string)
| FetchError_request (url : string) (reason : string)
| FetchError_body (url : string)
| FetchError_invalid_json (url : string) (source : string).

(** What can be thrown: [new Error(message)] by the function itself, or a
    runtime error. *)
Inductive exn : Type :=
| Error (message : string)
| Raised (r : runtime_error).

Inductive result (A : Type) : Type :=
| Ok (a : A)
| Throw (e : exn).
Arguments Ok {A} a.
Arguments Throw {A} e.

(** ** Requests, the network and the process state *)

Record request : Type := mkRequest {
  url : string;
  method : string;
  req_headers : list (string * string);
  req_body : text
}.

(** How a [fetch] ends: the promise rejects, or resolves with a status and a
    body stream ([None]: reading the body fails). *)
Inductive reply : Type :=
| Rejected (reason : string)
| Resolved (status : N) (payload : option string).

Record exchange : Type := mkExchange {
  outcome : reply;
  elapsed : Z
}.

(** A [Response] of [node-fetch]; [bodyUsed] tells whether its body stream
    has been read. *)
Record Response : Type := mkResponse {
  status : N;
  resp_url : string;
  payload : option string;
  bodyUsed : bool
}.

(** The same response once [text()] or [json()] has been called on it. *)
Definition read (r : Response) : Response :=
  mkResponse (status r) (resp_url r) (payload r) true.

(** A status in the range 200-299. *)
Definition success (s : N) : bool := (200 <=? s)%N && (s <=? 299)%N.

(** [response.ok] *)
Definition ok (r : Response) : bool := success (status r).

(** The process: the two module-level variables [cachedToken] and
    [tokenExpiry] (a [Date], as its time value), the clock in milliseconds,
    the requests sent so far (latest first) and what was written with
    [console.error]. *)
Record state : Type := mkState {
  cachedToken : value;
  tokenExpiry : option Z;
  now : Z;
  calls : list request;
  console : list string
}.

(** What the function takes from outside: [JSON.parse] on a source text
    ([None]: it throws a SyntaxError), [Number.prototype.toString], the
    message of a runtime error, the network's answer to a request given the
    requests before it, and the two environment variables. *)
Class Env : Type := mkEnv {
  JSON_parse_text : string -> option value;
  Number_toString : float -> string;
  runtime_message : runtime_error -> string;
  network : list request -> request -> exchange;
  INSTAPAY_CLIENT_ID : option string;
  INSTAPAY_CLIENT_SECRET : option string
}.

(** ** The monad: state passing with exceptions *)

Definition M (A : Type) : Type := state -> result A * state.

Definition ret {A : Type} (a : A) : M A := fun st => (Ok a, st).

Definition throw {A : Type} (e : exn) : M A := fun st => (Throw e, st).

Definition bind {A B : Type} (m : M A) (k : A -> M B) : M B :=
  fun st =>
    match m st with
    | (Ok a, st') => k a st'
    | (Throw e, st') => (Throw e, st')
    end.

(** [try { m } catch (e) { h e }] *)
Definition try_catch {A : Type} (m : M A) (h : exn -> M A) : M A :=
  fun st =>
    match m st with
    | (Ok a, st') => (Ok a, st')
    | (Throw e, st') => h e st'
    end.

Notation "x <- m ;; k" := (bind m (fun x => k))
  (at level 61, m at next level, right associativity).
Notation "m ;;; k" := (bind m (fun _ => k))
  (at level 61, right associativity).

Definition gets {A : Type} (f : state -> A) : M A := fun st => (Ok (f st), st).

Definition modify (f : state -> state) : M unit := fun st => (Ok tt, f st).

Definition set_cachedToken (v : value) (st : state) : state :=
  mkState v (tokenExpiry st) (now st) (calls st) (console st).

Definition set_tokenExpiry (d : option Z) (st : state) : state :=
  mkState (cachedToken st) d (now st) (calls st) (console st).

Definition sent (rq : request) (dt : Z) (st : state) : state :=
  mkState (cachedToken st) (tokenExpiry st) (now st + dt) (rq :: calls st)
    (console st).

Definition logged (line : string) (st : state) : state :=
  mkState (cachedToken st) (tokenExpiry st) (now st) (calls st)
    (line :: console st).

(** ** The program *)

Section Program.
Context {env : Env}.

(** [JSON.parse(s)] *)
Definition JSON_parse (s : string) : M value :=
  match JSON_parse_text s with
  | Some v => ret v
  | None => throw (Raised (SyntaxError_JSON s))
  end.

(** [v.k], and each binding of [const { k, ... } = v]: a TypeError when [v]
    is [null] or [undefined]. *)
Definition get_prop (v : value) (k : string) : M value :=
  if nullish v then throw (Raised (TypeError_nullish v k)) else ret (prop v k).

(** Whether ToString converts [v]: an object with an own [toString] member
    (which, coming from JSON, is no function) cannot be converted to a
    primitive, and an array converts when its elements do. *)
Fixpoint converts (v : value) : bool :=
  match v with
  | VArr items => forallb (fun x => nullish x || converts x) items
  | VObj ps => match lookup "toString" ps with Some _ => false | None => true end
  | _ => true
  end.

(** ToString of a value that converts. *)
Fixpoint ToString (v : value) : string :=
  match v with
  | VUndefined => "undefined"
  | VNull => "null"
  | VBool true => "true"
  | VBool false => "false"
  | VNum x => Number_toString x
  | VStr s => s
  | VArr items =>
      (fix join (xs : list value) : string :=
         match xs with
         | [] => ""
         | [x] => if nullish x then "" else ToString x
         | x :: rest => (if nullish x then "" else ToString x) ++ "," ++ join rest
         end) items
  | VObj _ => "[object Object]"
  end.

(** [`${v}`]: ToString, or the TypeError of ToPrimitive. *)
Definition template (v : value) : M string :=
  if converts v then ret (ToString v) else throw (Raised (TypeError_primitive v)).

(** A status code in a template literal. *)
Definition decimal (n : N) : string := NilEmpty.string_of_uint (N.to_uint n).

(** [error.message] *)
Definition message (e : exn) : string :=
  match e with
  | Error m => m
  | Raised r => runtime_message r
  end.

(** [process.env.NAME] as a value. *)
Definition env_value (x : option string) : value :=
  match x with
  | Some s => VStr s
  | None => VUndefined
  end.

Definition CLIENT_ID : value := env_value INSTAPAY_CLIENT_ID.
Definition CLIENT_SECRET : value := env_value INSTAPAY_CLIENT_SECRET.
Definition API_URL : string := "https://api.instapaybr.com".

(** The characters [node-fetch] accepts in a header value: tab, the
    printable ASCII characters and U+0080 to U+00FF, whose UTF-8 bytes are
    [C2] or [C3] followed by a byte in [80]-[BF]. *)
Definition legal_header_byte (c : ascii) : bool :=
  let n := nat_of_ascii c in
  (n =? 9)%nat || ((32 <=? n)%nat && (n <=? 126)%nat)
  || ((128 <=? n)%nat && (n <=? 191)%nat) || (n =? 194)%nat || (n =? 195)%nat.

Fixpoint legal_header_value (s : string) : bool :=
  match s with
  | EmptyString => true
  | String c rest => legal_header_byte c && legal_header_value rest
  end.

(** The first header whose value [node-fetch] refuses. *)
Definition illegal_header (rq : request) : option (string * string) :=
  find (fun h => negb (legal_header_value (snd h))) (req_headers rq).

(** The request goes out, time passes, and the promise rejects or resolves
    with a fresh response. *)
Definition transmit (rq : request) : M Response :=
  fun st =>
    let x := network (calls st) rq in
    let st' := sent rq (elapsed x) st in
    match outcome x with
    | Rejected reason => (Throw (Raised (FetchError_request (url rq) reason)), st')
    | Resolved s p => (Ok (mkResponse s (url rq) p false), st')
    end.

(** [fetch(url, options)]: [node-fetch] builds the request first, and
    rejects with a TypeError, sending nothing, when a header value is not
    legal. *)
Definition fetch (rq : request) : M Response :=
  match illegal_header rq with
  | Some (_, content) => throw (Raised (TypeError_header content))
  | None => transmit rq
  end.

(** [consumeBody] of [node-fetch]: a body is read once; a second read is
    rejected with a TypeError.  The caller goes on with [read r]. *)
Definition consumeBody (r : Response) : M string :=
  if bodyUsed r then throw (Raised (TypeError_body_used (resp_url r)))
  else
    match payload r with
    | Some s => ret s
    | None => throw (Raised (FetchError_body (resp_url r)))
    end.

(** [response.text()] *)
Definition Response_text (r : Response) : M string := consumeBody r.

(** [response.json()] *)
Definition Response_json (r : Response) : M value :=
  s <- consumeBody r ;;
  match JSON_parse_text s with
  | Some v => ret v
  | None => throw (Raised (FetchError_invalid_json (resp_url r) s))
  end.

(** [new Date() < tokenExpiry] *)
Definition before (t : Z) (expiry : option Z) : bool :=
  match expiry with
  | Some e => (t <? e)%Z
  | None => false
  end.

(** The test that opens [authenticate]:
    [cachedToken && tokenExpiry && new Date() < tokenExpiry]. *)
Definition cache_valid (st : state) : bool :=
  truthy (cachedToken st) && before (now st) (tokenExpiry st).

Definition login_request : request :=
  mkRequest (API_URL ++ "/api/auth/login") "POST"
    [("Content-Type", "application/json")]
    (JSON_stringify [("client_id", CLIENT_ID); ("client_secret", CLIENT_SECRET)]).

Definition authenticate : M value :=
  valid <- gets cache_valid ;;
  if valid then gets cachedToken
  else if negb (truthy CLIENT_ID) || negb (truthy CLIENT_SECRET) then
    throw (Error "Credenciais da Instapay (INSTAPAY_CLIENT_ID ou INSTAPAY_CLIENT_SECRET) não configuradas nas Variáveis de Ambiente do Netlify.")
  else
    response <- fetch login_request ;;
    if negb (ok response) then
      errorText <- Response_text response ;;
      throw (Error ("Falha na autenticação (Status " ++ decimal (status response)
                    ++ "): " ++ errorText))
    else
      data <- Response_json response ;;
      t1 <- get_prop data "token" ;;
      token <- (if truthy t1 then ret t1 else get_prop data "access_token") ;;
      if negb (truthy token) then
        throw (Error "Resposta de autenticação não contém token JWT.")
      else
        modify (set_cachedToken token) ;;;
        t <- gets now ;;
        modify (set_tokenExpiry (Some (t + 55 * 60 * 1000)%Z)) ;;;
        gets cachedToken.

(** ** The handler *)

(** The Netlify event: the method, the request headers and the body
    ([None]: [null]). *)
Record event : Type := mkEvent {
  httpMethod : string;
  headers : list (string * string);
  body : option string
}.

(** The object the handler returns; [resp_headers] is [None] when the object
    has no [headers] property. *)
Record http_response : Type := mkHttp {
  statusCode : N;
  resp_headers : option (list (string * string));
  resp_body : text
}.

Definition cors_headers : list (string * string) :=
  [ ("Content-Type", "application/json");
    ("Access-Control-Allow-Origin", "*");
    ("Access-Control-Allow-Methods", "POST, OPTIONS");
    ("Access-Control-Allow-Headers", "Content-Type") ].

(** [event.body] as [JSON.parse] reads its argument. *)
Definition body_source (ev : event) : string :=
  match body ev with
  | Some s => s
  | None => "null"
  end.

(** [event.headers.host] in the template literal. *)
Definition host (ev : event) : string :=
  match lookup "host" (headers ev) with
  | Some h => h
  | None => "undefined"
  end.

Definition deposit_request (ev : event) (bearer : string)
    (amount external_id payer : value) : request :=
  mkRequest (API_URL ++ "/api/payments/deposit") "POST"
    [ ("Authorization", "Bearer " ++ bearer);
      ("Content-Type", "application/json") ]
    (JSON_stringify
       [ ("amount", amount);
         ("external_id", external_id);
         ("clientCallbackUrl",
           VStr ("https://" ++ host ev ++ "/.netlify/functions/pix-webhook"));
         ("payer", payer) ]).

Definition method_not_allowed : http_response :=
  mkHttp 405 None (JSON_stringify [("error", VStr "Método não permitido. Use POST.")]).

Definition preflight : http_response :=
  mkHttp 200 (Some cors_headers) (Plain "").

Definition incomplete : http_response :=
  mkHttp 400 (Some cors_headers)
    (JSON_stringify
       [("error", VStr "Dados incompletos. Requer: amount, external_id e payer.")]).

Definition internal_error (details : string) : http_response :=
  mkHttp 500 (Some cors_headers)
    (JSON_stringify
       [ ("error", VStr "Erro interno do servidor ao processar PIX.");
         ("details", VStr details) ]).

Definition unknown_deposit_error : string :=
  "Erro desconhecido ao criar depósito na Instapay.".

(** The second half of the handler's [try] block, from the deposit request
    on (steps 3 to 5 in the source).  In the inner [catch],
    [depositResponse.json()] has already read the body, so [text()] is called
    on [read depositResponse]. *)
Definition deposit (ev : event) (token amount external_id payer : value)
  : M http_response :=
  bearer <- template token ;;
  depositResponse <- fetch (deposit_request ev bearer amount external_id payer) ;;
  depositData <-
    try_catch (Response_json depositResponse)
      (fun e =>
         errorText <- Response_text (read depositResponse) ;;
         throw (Error ("Resposta da API de Depósito não é JSON. Status: "
                       ++ decimal (status depositResponse)
                       ++ ". Resposta: " ++ errorText))) ;;
  if negb (ok depositResponse) then
    e1 <- get_prop depositData "error" ;;
    err <- (if truthy e1 then ret e1
            else
              e2 <- get_prop depositData "message" ;;
              if truthy e2 then ret e2 else ret (VStr unknown_deposit_error)) ;;
    ret (mkHttp (status depositResponse) (Some cors_headers)
           (JSON_stringify [("error", err); ("details", depositData)]))
  else
    transaction_id <- get_prop depositData "transaction_id" ;;
    qr_code_image <- get_prop depositData "qr_code_image" ;;
    pix_code <- get_prop depositData "pix_code" ;;
    status' <- get_prop depositData "status" ;;
    ret (mkHttp 200 (Some cors_headers)
           (JSON_stringify
              [ ("transaction_id", transaction_id);
                ("qr_code_image", qr_code_image);
                ("pix_code", pix_code);
                ("status", status') ])).

(** The body of the handler's [try] block: the order is read and validated
    (step 1), the token obtained (step 2), and the deposit made. *)
Definition process (ev : event) : M http_response :=
  parsed <- JSON_parse (body_source ev) ;;
  amount <- get_prop parsed "amount" ;;
  external_id <- get_prop parsed "external_id" ;;
  payer <- get_prop parsed "payer" ;;
  if negb (truthy amount) || negb (truthy external_id) || negb (truthy payer) then
    ret incomplete
  else
    token <- authenticate ;;
    deposit ev token amount external_id payer.

(** [console.error(label, text)] *)
Definition console_error (label text : string) : M unit :=
  modify (logged (label ++ " " ++ text)).

(** [exports.handler] *)
Definition handler (ev : event) : M http_response :=
  if negb (httpMethod ev =? "POST") then ret method_not_allowed
  else if httpMethod ev =? "OPTIONS" then ret preflight
  else
    try_catch (process ev)
      (fun error =>
         console_error "Erro na Netlify Function:" (message error) ;;;
         ret (internal_error (message error))).

End Program.

(** ** A sample environment

    A small, concrete [Env] to run the program on: [JSON.parse] on the few
    source texts the examples use (and a SyntaxError elsewhere), a network
    that answers the login and the deposit request as scripted, and both
    credentials configured. *)

Definition dq : string := String (ascii_of_nat 34) "".

Definition quoted (s : string) : string := dq ++ s ++ dq.

(** [{"amount":10,"external_id":"abc","payer":{}}] *)
Definition order_source : string :=
  "{" ++ quoted "amount" ++ ":10," ++ quoted "external_id" ++ ":" ++ quoted "abc"
  ++ "," ++ quoted "payer" ++ ":{}}".

Definition order : value :=
  VObj [("amount", VNum 10%float); ("external_id", VStr "abc"); ("payer", VObj [])].

(** [{"external_id":"abc","payer":{}}] *)
Definition partial_order_source : string :=
  "{" ++ quoted "external_id" ++ ":" ++ quoted "abc" ++ "," ++ quoted "payer" ++ ":{}}".

Definition partial_order : value :=
  VObj [("external_id", VStr "abc"); ("payer", VObj [])].

(** [{"token":"jwt"}] *)
Definition login_source : string := "{" ++ quoted "token" ++ ":" ++ quoted "jwt" ++ "}".

Definition login_data : value := VObj [("token", VStr "jwt")].

(** [{"access_token":"jwt2"}] *)
Definition login_source' : string :=
  "{" ++ quoted "access_token" ++ ":" ++ quoted "jwt2" ++ "}".

Definition login_data' : value := VObj [("access_token", VStr "jwt2")].

(** [{"transaction_id":"t1","qr_code_image":"img","pix_code":"pix","status":"PENDING","fee":"1"}] *)
Definition charge_source : string :=
  "{" ++ quoted "transaction_id" ++ ":" ++ quoted "t1" ++ ","
  ++ quoted "qr_code_image" ++ ":" ++ quoted "img" ++ ","
  ++ quoted "pix_code" ++ ":" ++ quoted "pix" ++ ","
  ++ quoted "status" ++ ":" ++ quoted "PENDING" ++ ","
  ++ quoted "fee" ++ ":" ++ quoted "1" ++ "}".

Definition charge : value :=
  VObj [ ("transaction_id", VStr "t1"); ("qr_code_image", VStr "img");
         ("pix_code", VStr "pix"); ("status", VStr "PENDING"); ("fee", VStr "1") ].

(** [{"error":"insufficient_funds"}] *)
Definition refusal_source : string :=
  "{" ++ quoted "error" ++ ":" ++ quoted "insufficient_funds" ++ "}".

Definition refusal : value := VObj [("error", VStr "insufficient_funds")].

Definition documents : list (string * value) :=
  [ ("null", VNull); ("{}", VObj []);
    (order_source, order); (partial_order_source, partial_order);
    (login_source, login_data); (login_source', login_data');
    (charge_source, charge); (refusal_source, refusal) ].

Definition sample_parse (s : string) : option value := lookup s documents.

Definition sample_message (r : runtime_error) : string :=
  match r with
  | SyntaxError_JSON _ => "Unexpected token in JSON"
  | TypeError_nullish _ k => "Cannot read properties of null (reading '" ++ k ++ "')"
  | TypeError_primitive _ => "Cannot convert object to primitive value"
  | TypeError_header content => content ++ " is not a legal HTTP header value"
  | TypeError_body_used u => "body used already for: " ++ u
  | FetchError_request u reason => "request to " ++ u ++ " failed, reason: " ++ reason
  | FetchError_body u => "Invalid response body while trying to fetch " ++ u
  | FetchError_invalid_json u _ => "invalid json response body at " ++ u
  end.

(** The network that gives [login] to the login request and [deposit] to any
    other. *)
Definition scripted (login deposit : exchange) (_ : list request) (rq : request)
  : exchange :=
  if url rq =? API_URL ++ "/api/auth/login" then login else deposit.

(** No example prints a number, so [Number_toString] is left trivial. *)
Definition sample_env (login deposit : exchange) : Env :=
  mkEnv sample_parse (fun _ => "NaN") sample_message (scripted login deposit)
    (Some "client") (Some "secret").

Definition answers (s : N) (source : string) : exchange :=
  mkExchange (Resolved s (Some source)) 120.

Definition down : exchange := mkExchange (Rejected "ECONNREFUSED") 30.

(** The provider is down: nothing answers. *)
Definition offline : Env := sample_env down down.

(** The provider logs in with the field [token] and accepts the deposit. *)
Definition accepting : Env :=
  sample_env (answers 200 login_source) (answers 200 charge_source).

(** The provider logs in and refuses the deposit with [402]. *)
Definition refusing : Env :=
  sample_env (answers 200 login_source) (answers 402 refusal_source).

(** The provider logs in with the field [access_token]. *)
Definition renamed : Env := sample_env (answers 200 login_source') down.

(** The provider refuses the login with [401]. *)
Definition rejecting : Env := sample_env (answers 401 "denied") down.

(** The secret is configured as the empty string. *)
Definition unconfigured : Env :=
  mkEnv sample_parse (fun _ => "NaN") sample_message (scripted down down)
    (Some "client") (Some "").

(** [{"amount":0,"external_id":"abc","payer":{}}] *)
Definition free_order_source : string :=
  "{" ++ quoted "amount" ++ ":0," ++ quoted "external_id" ++ ":" ++ quoted "abc"
  ++ "," ++ quoted "payer" ++ ":{}}".

Definition free_order : value :=
  VObj [("amount", VNum 0%float); ("external_id", VStr "abc"); ("payer", VObj [])].

(** The offline environment, reading that order as well. *)
Definition offline' : Env :=
  mkEnv (fun s => if s =? free_order_source then Some free_order else sample_parse s)
    (fun _ => "NaN") sample_message (scripted down down) (Some "client") (Some "secret").

(** [{"error":"limit","limit":1e400}]: the numeral is beyond the doubles and
    parses to an infinity. *)
Definition overflow_source : string :=
  "{" ++ quoted "error" ++ ":" ++ quoted "limit" ++ ","
  ++ quoted "limit" ++ ":1e400}".

Definition overflow : value :=
  VObj [("error", VStr "limit"); ("limit", VNum PrimFloat.infinity)].

(** [{"transaction_id":"t1","status":-0}] *)
Definition signed_source : string :=
  "{" ++ quoted "transaction_id" ++ ":" ++ quoted "t1" ++ ","
  ++ quoted "status" ++ ":-0}".

Definition signed : value :=
  VObj [("transaction_id", VStr "t1"); ("status", VNum PrimFloat.neg_zero)].

(** The provider logs in and answers the deposit as scripted; [JSON.parse]
    reads the two texts above as well. *)
Definition extreme (deposit : exchange) : Env :=
  mkEnv (fun s => if s =? overflow_source then Some overflow
                  else if s =? signed_source then Some signed
                  else sample_parse s)
    (fun _ => "NaN") sample_message (scripted (answers 200 login_source) deposit)
    (Some "client") (Some "secret").

(** [{"token":"jwt\n"}]: a token that ends in a line feed. *)
Definition broken_login_source : string :=
  "{" ++ quoted "token" ++ ":" ++ quoted "jwt\n" ++ "}".

Definition broken_token : value :=
  VStr ("jwt" ++ String (ascii_of_nat 10) "").

(** The provider logs in with that token and would accept the deposit. *)
Definition careless : Env :=
  mkEnv (fun s => if s =? broken_login_source
                  then Some (VObj [("token", broken_token)])
                  else sample_parse s)
    (fun _ => "NaN") sample_message
    (scripted (answers 200 broken_login_source) (answers 200 charge_source))
    (Some "client") (Some "secret").

(** The state of a freshly loaded module, at clock [1000]. *)
Definition cold : state := mkState VNull None 1000 [] [].

(** A state holding the token [jwt], valid until [5000]. *)
Definition warm : state := mkState (VStr "jwt") (Some 5000%Z) 1000 [] [].

Definition post (source : string) : event :=
  mkEvent "POST" [("host", "shop.example")] (Some source).

(** Whether a text is a JSON object with a member [k]. *)
Definition has_member (k : string) (t : text) : bool :=
  match t with
  | Document (VObj ms) => match lookup k ms with Some _ => true | None => false end
  | _ => false
  end.

(** The member [k] of a JSON object text. *)
Definition member (k : string) (t : text) : option value :=
  match t with
  | Document (VObj ms) => lookup k ms
  | _ => None
  end.

(** The keys of a JSON object text, in order. *)
Definition keys (t : text) : list string :=
  match t with
  | Document (VObj ms) => map fst ms
  | _ => []
  end.

(** The token [authenticate] takes from the login data:
    [data.token || data.access_token]. *)
Definition token_of (data : value) : value :=
  if truthy (prop data "token") then prop data "token" else prop data "access_token".

(** The state once [token] is stored with an expiry 55 minutes from the
    current time. *)
Definition stored (token : value) (st : state) : state :=
  mkState token (Some (now st + 55 * 60 * 1000)%Z) (now st) (calls st) (console st).

(** The condition under which the cached token may be reused: there is a
    cached token, and the current time is strictly before the recorded
    expiry. *)
Definition reusable (st : state) : Prop :=
  truthy (cachedToken st) = true
  /\ exists e, tokenExpiry st = Some e /\ (now st < e)%Z.

(** A token the deposit request can carry: it converts to a string, and
    the string is a legal header value. *)
Definition sendable {env : Env} (token : value) : bool :=
  converts token && legal_header_value (ToString token).

(** The error the handler reports for a refused deposit: the provider's
    [error], else its [message], else a default text. *)
Definition deposit_error (data : value) : value :=
  if truthy (prop data "error") then prop data "error"
  else if truthy (prop data "message") then prop data "message"
  else VStr unknown_deposit_error.

(** The success body: the four properties read from the provider's data. *)
Definition pix_body (data : value) : text :=
  JSON_stringify
    [ ("transaction_id", prop data "transaction_id");
      ("qr_code_image", prop data "qr_code_image");
      ("pix_code", prop data "pix_code");
      ("status", prop data "status") ].

(** The body that forwards a refused deposit. *)
Definition refusal_body (data : value) : text :=
  JSON_stringify [("error", deposit_error data); ("details", data)].

(** The four members of the success body. *)
Definition pix_fields : list string :=
  ["transaction_id"; "qr_code_image"; "pix_code"; "status"].

(** The state after the top-level [catch] has reported [e]. *)
Definition reported {env : Env} (e : exn) (st : state) : state :=
  logged ("Erro na Netlify Function:" ++ " " ++ message e) st.

(** The invariant of the token cache: both variables are still [null], or
    a token that is truthy is stored together with an expiry. *)
Definition cache_wf (st : state) : Prop :=
  match tokenExpiry st with
  | None => cachedToken st = VNull
  | Some _ => truthy (cachedToken st) = true
  end.

(** The same process at clock [t]: what a later invocation starts from. *)
Definition at_clock (t : Z) (st : state) : state :=
  mkState (cachedToken st) (tokenExpiry st) t (calls st) (console st).

(** The three fields of an order are all truthy. *)
Definition complete (v : value) : bool :=
  truthy (prop v "amount") && truthy (prop v "external_id") && truthy (prop v "payer").

(** The deposit request the handler builds for the order [v]. *)
Definition deposit_of {env : Env} (ev : event) (token v : value) : request :=
  deposit_request ev (ToString token)
    (prop v "amount") (prop v "external_id") (prop v "payer").

(** The three errors [authenticate] creates itself. *)
Definition credentials_message : string :=
  "Credenciais da Instapay (INSTAPAY_CLIENT_ID ou INSTAPAY_CLIENT_SECRET) não configuradas nas Variáveis de Ambiente do Netlify.".

Definition refused_message {env : Env} (s : N) (errorText : string) : string :=
  "Falha na autenticação (Status " ++ decimal s ++ "): " ++ errorText.

Definition no_token_message : string :=
  "Resposta de autenticação não contém token JWT.".

(** The error the inner [catch] of the deposit is written to throw. *)
Definition not_json_message {env : Env} (s : N) (errorText : string) : string :=
  "Resposta da API de Depósito não é JSON. Status: " ++ decimal s
  ++ ". Resposta: " ++ errorText.

(** How a run of the handler on a [POST] ends once the order is complete. *)
Definition charged {env : Env} (ev : event) (st : state) (r : http_response) (st' : state)
  : Prop :=
  exists v token st0 dt,
    JSON_parse_text (body_source ev) = Some v /\ complete v = true
    /\ authenticate st = (Ok token, st0)
    /\ sendable token = true
    /\ st' = sent (deposit_of ev token v) dt st0
    /\ exists s data,
         nullish data = false
         /\ r = if success s
                then mkHttp 200 (Some cors_headers) (pix_body data)
                else mkHttp s (Some cors_headers) (refusal_body data).

(** How a run of the handler on a [POST] ends in the top-level [catch]. *)
Definition caught {env : Env} (ev : event) (st : state) (e : exn) (st1 : state) : Prop :=
  (st1 = st
   /\ (e = Raised (SyntaxError_JSON (body_source ev))
       \/ exists v, JSON_parse_text (body_source ev) = Some v
                    /\ e = Raised (TypeError_nullish v "amount")))
  \/ (exists v,
        JSON_parse_text (body_source ev) = Some v /\ complete v = true
        /\ authenticate st = (Throw e, st1))
  \/ (exists v token st0 x,
        JSON_parse_text (body_source ev) = Some v /\ complete v = true
        /\ authenticate st = (Ok token, st0)
        /\ e = Raised x
        /\ (sendable token = false /\ st1 = st0
            \/ sendable token = true
               /\ exists dt, st1 = sent (deposit_of ev token v) dt st0)).

(** ** Running the monad *)

Section Properties.
Context {env : Env}.

Lemma bind_Ok {A B : Type} (m : M A) (k : A -> M B) (st st1 : state) (a : A) :
  m st = (Ok a, st1) -> bind m k st = k a st1.
Proof. intros H. unfold bind. now rewrite H. Qed.

Lemma bind_Throw {A B : Type} (m : M A) (k : A -> M B) (st st1 : state) (e : exn) :
  m st = (Throw e, st1) -> bind m k st = (Throw e, st1).
Proof. intros H. unfold bind. now rewrite H. Qed.

Lemma bind_Ok_inv {A B : Type} (m : M A) (k : A -> M B) (st st2 : state) (b : B) :
  bind m k st = (Ok b, st2) ->
  exists a st1, m st = (Ok a, st1) /\ k a st1 = (Ok b, st2).
Proof.
  unfold bind. destruct (m st) as [[a | e] st1]; intros H.
  - now exists a, st1.
  - discriminate.
Qed.

Lemma try_catch_Ok {A : Type} (m : M A) (h : exn -> M A) (st st1 : state) (a : A) :
  m st = (Ok a, st1) -> try_catch m h st = (Ok a, st1).
Proof. intros H. unfold try_catch. now rewrite H. Qed.

Lemma try_catch_Throw {A : Type} (m : M A) (h : exn -> M A) (st st1 : state) (e : exn) :
  m st = (Throw e, st1) -> try_catch m h st = h e st1.
Proof. intros H. unfold try_catch. now rewrite H. Qed.

(** The login request has legal headers: it is always sent. *)
Lemma fetch_login : fetch login_request = transmit login_request.
Proof. reflexivity. Qed.

Lemma fetch_legal (rq : request) :
  illegal_header rq = None -> fetch rq = transmit rq.
Proof. intros H. unfold fetch. now rewrite H. Qed.

Lemma fetch_illegal (rq : request) (name content : string) (st : state) :
  illegal_header rq = Some (name, content) ->
  fetch rq st = (Throw (Raised (TypeError_header content)), st).
Proof. intros H. unfold fetch. now rewrite H. Qed.

Lemma template_converts (v : value) (st : state) :
  converts v = true -> template v st = (Ok (ToString v), st).
Proof. intros H. unfold template. now rewrite H. Qed.

Lemma template_fails (v : value) (st : state) :
  converts v = false -> template v st = (Throw (Raised (TypeError_primitive v)), st).
Proof. intros H. unfold template. now rewrite H. Qed.

Lemma get_prop_defined (v : value) (k : string) (st : state) :
  nullish v = false -> get_prop v k st = (Ok (prop v k), st).
Proof. intros H. unfold get_prop. now rewrite H. Qed.

Lemma get_prop_nullish (v : value) (k : string) (st : state) :
  nullish v = true -> get_prop v k st = (Throw (Raised (TypeError_nullish v k)), st).
Proof. intros H. unfold get_prop. now rewrite H. Qed.

Lemma get_prop_Ok_inv (v x : value) (k : string) (st st1 : state) :
  get_prop v k st = (Ok x, st1) -> nullish v = false /\ x = prop v k /\ st1 = st.
Proof.
  unfold get_prop. destruct (nullish v); cbn; intros H.
  - discriminate.
  - now inversion H.
Qed.

Lemma serialize_VObj (ps : list (string * value)) :
  serialize (VObj ps) = Some (VObj (serialize_members ps)).
Proof. reflexivity. Qed.

Lemma serialize_defined (v : value) :
  v <> VUndefined -> exists j, serialize v = Some j.
Proof. destruct v; intros H; try (eexists; reflexivity). now elim H. Qed.

(** ** The method dispatch *)

(** Whatever the method, unless it is [POST], the first statement answers
    [405] and nothing else runs. *)
Lemma handler_not_POST (ev : event) (st : state) :
  httpMethod ev <> "POST" -> handler ev st = (Ok method_not_allowed, st).
Proof.
  intros H. unfold handler.
  apply String.eqb_neq in H. now rewrite H.
Qed.

Lemma handler_POST (ev : event) (st : state) :
  httpMethod ev = "POST" ->
  handler ev st =
    try_catch (process ev)
      (fun error =>
         console_error "Erro na Netlify Function:" (message error) ;;;
         ret (internal_error (message error))) st.
Proof. intros H. unfold handler. now rewrite H. Qed.

(** What the top-level [catch] makes of an error: it writes one line to the
    console and answers [500]. *)
Lemma handler_caught (ev : event) (st st1 : state) (e : exn) :
  httpMethod ev = "POST" ->
  process ev st = (Throw e, st1) ->
  handler ev st =
    (Ok (internal_error (message e)),
     logged ("Erro na Netlify Function:" ++ " " ++ message e) st1).
Proof.
  intros Hm H. rewrite (handler_POST _ _ Hm).
  now rewrite (try_catch_Throw _ _ _ _ _ H).
Qed.

Lemma handler_returned (ev : event) (st st1 : state) (r : http_response) :
  httpMethod ev = "POST" ->
  process ev st = (Ok r, st1) ->
  handler ev st = (Ok r, st1).
Proof.
  intros Hm H. rewrite (handler_POST _ _ Hm).
  now rewrite (try_catch_Ok _ _ _ _ _ H).
Qed.

(** C1, on the code: a request with method [OPTIONS] is caught by the first
    statement, which answers every method other than [POST]: the handler
    returns [405] with the JSON error body and no [headers] property, and
    the state is untouched.  The pre-flight answer ([200], empty body, CORS
    headers) is never returned for it. *)
Theorem handler_OPTIONS_is_405 (hs : list (string * string)) (b : option string)
    (st : state) :
  handler (mkEvent "OPTIONS" hs b) st = (Ok method_not_allowed, st)
  /\ statusCode method_not_allowed = 405%N
  /\ resp_headers method_not_allowed = None
  /\ method_not_allowed <> preflight.
Proof.
  split; [| split; [| split]].
  - apply handler_not_POST. cbn. discriminate.
  - reflexivity.
  - reflexivity.
  - discriminate.
Qed.

(** C3: for a method that is neither [POST] nor [OPTIONS] the handler
    answers [405] with a JSON body that has an [error] member, and leaves the
    state as it was: no request is sent, neither the login nor the deposit. *)
Theorem handler_other_method (ev : event) (st : state) :
  httpMethod ev <> "POST" ->
  httpMethod ev <> "OPTIONS" ->
  exists r,
    handler ev st = (Ok r, st)
    /\ statusCode r = 405%N
    /\ has_member "error" (resp_body r) = true.
Proof.
  intros HP _. exists method_not_allowed. split; [| split].
  - now apply handler_not_POST.
  - reflexivity.
  - reflexivity.
Qed.

(** ** The CORS headers *)

Ltac run_Ok H :=
  repeat first
    [ apply bind_Ok_inv in H; destruct H as (? & ? & _ & H)
    | match type of H with (if ?c then _ else _) _ = _ => destruct c end
    | match type of H with ret _ _ = _ => inversion H; subst; clear H end ].

(** Every response the [try] block returns carries the CORS headers. *)
Lemma process_headers (ev : event) (st st1 : state) (r : http_response) :
  process ev st = (Ok r, st1) -> resp_headers r = Some cors_headers.
Proof.
  intros H. unfold process in H. run_Ok H; reflexivity.
Qed.

(** The handler always returns a response: the promise never rejects. *)
Lemma handler_total (ev : event) (st : state) :
  exists r st1, handler ev st = (Ok r, st1).
Proof.
  unfold handler.
  destruct (httpMethod ev =? "POST"); cbn.
  - destruct (httpMethod ev =? "OPTIONS"); cbn.
    + now exists preflight, st.
    + unfold try_catch. destruct (process ev st) as [[r | e] st1].
      * now exists r, st1.
      * eexists _, _. reflexivity.
  - now exists method_not_allowed, st.
Qed.

(** C2, as the code has it: the response to a [POST] request carries the
    four CORS headers whatever the outcome ([200], [400], the provider's
    status or [500]); the [405] answer to a method other than [POST] and
    [OPTIONS] has no [headers] property. *)
Theorem cors_headers_by_method (ev : event) (st : state) :
  (httpMethod ev = "POST" ->
   exists r st1,
     handler ev st = (Ok r, st1) /\ resp_headers r = Some cors_headers)
  /\ (httpMethod ev <> "POST" -> httpMethod ev <> "OPTIONS" ->
      exists r, handler ev st = (Ok r, st) /\ resp_headers r = None).
Proof.
  split.
  - intros Hm. destruct (process ev st) as [[r | e] st1] eqn:Hp.
    + exists r, st1. split.
      * now apply handler_returned.
      * now apply process_headers in Hp.
    + eexists _, _. split.
      * now apply handler_caught; eauto.
      * reflexivity.
  - intros Hm _. exists method_not_allowed. split.
    + now apply handler_not_POST.
    + reflexivity.
Qed.

(** ** Validation of the order *)

(** The [try] block up to the validation: a body that parses to a value
    other than [null] with a falsy [amount], [external_id] or [payer] gets
    the [400] answer at once. *)
Lemma process_incomplete (ev : event) (st : state) (v : value) :
  JSON_parse_text (body_source ev) = Some v ->
  nullish v = false ->
  truthy (prop v "amount") && truthy (prop v "external_id")
    && truthy (prop v "payer") = false ->
  process ev st = (Ok incomplete, st).
Proof.
  intros Hp Hn Hf. unfold process, JSON_parse. rewrite Hp.
  unfold bind at 1. cbn.
  rewrite (bind_Ok _ _ _ _ _ (get_prop_defined v "amount" st Hn)).
  rewrite (bind_Ok _ _ _ _ _ (get_prop_defined v "external_id" st Hn)).
  rewrite (bind_Ok _ _ _ _ _ (get_prop_defined v "payer" st Hn)).
  rewrite <- !negb_andb, Hf. reflexivity.
Qed.

(** A body that parses to [null] (or [undefined]) fails at the
    destructuring, with a TypeError. *)
Lemma process_nullish (ev : event) (st : state) (v : value) :
  JSON_parse_text (body_source ev) = Some v ->
  nullish v = true ->
  process ev st = (Throw (Raised (TypeError_nullish v "amount")), st).
Proof.
  intros Hp Hn. unfold process, JSON_parse. rewrite Hp.
  unfold bind at 1. cbn.
  now rewrite (bind_Throw _ _ _ _ _ (get_prop_nullish v "amount" st Hn)).
Qed.

(** A body that is not JSON fails at [JSON.parse], with a SyntaxError. *)
Lemma process_unparsable (ev : event) (st : state) :
  JSON_parse_text (body_source ev) = None ->
  process ev st = (Throw (Raised (SyntaxError_JSON (body_source ev))), st).
Proof.
  intros Hp. unfold process, JSON_parse. rewrite Hp. reflexivity.
Qed.

(** C4, as the code has it: when the body of a [POST] request parses to a
    JSON value other than [null] in which [amount], [external_id] or [payer]
    is missing, the handler answers [400] with a JSON body that has an
    [error] member, and the state is as before: no login and no deposit
    request is sent. *)
Theorem missing_field_is_400 (ev : event) (st : state) (v : value) :
  httpMethod ev = "POST" ->
  JSON_parse_text (body_source ev) = Some v ->
  nullish v = false ->
  prop v "amount" = VUndefined \/ prop v "external_id" = VUndefined
    \/ prop v "payer" = VUndefined ->
  exists r,
    handler ev st = (Ok r, st)
    /\ statusCode r = 400%N
    /\ has_member "error" (resp_body r) = true.
Proof.
  intros Hm Hp Hn Hmiss. exists incomplete. split; [| split].
  - apply handler_returned; [assumption |].
    apply (process_incomplete ev st v Hp Hn).
    destruct Hmiss as [-> | [-> | ->]]; cbn.
    + reflexivity.
    + now rewrite andb_false_r.
    + apply andb_false_r.
  - reflexivity.
  - reflexivity.
Qed.

(** ** The authenticator *)

Lemma authenticate_cached (st : state) :
  cache_valid st = true -> authenticate st = (Ok (cachedToken st), st).
Proof.
  intros H. unfold authenticate, bind, gets. now rewrite H.
Qed.

Lemma authenticate_unconfigured (st : state) :
  cache_valid st = false ->
  truthy CLIENT_ID && truthy CLIENT_SECRET = false ->
  exists m, authenticate st = (Throw (Error m), st).
Proof.
  intros H Hc. unfold authenticate, bind, gets. rewrite H.
  rewrite <- negb_andb, Hc. cbn. eexists. reflexivity.
Qed.

(** With no valid cached token, [authenticate] either throws or sends a
    request: it never returns a token and leaves the state as it was. *)
Lemma authenticate_not_cached (st st1 : state) (r : result value) :
  cache_valid st = false ->
  authenticate st = (r, st1) ->
  (exists e, r = Throw e) \/ exists dt, calls st1 = login_request :: calls st
                                         /\ now st1 = (now st + dt)%Z.
Proof.
  intros H. unfold authenticate.
  unfold bind at 1. unfold gets at 1. rewrite H.
  destruct (negb (truthy CLIENT_ID) || negb (truthy CLIENT_SECRET)).
  - intros E. inversion E. left. eexists. reflexivity.
  - unfold bind at 1. rewrite fetch_login. unfold transmit.
    destruct (network (calls st) login_request) as [[reason | s p] dt]; cbn [outcome elapsed].
    + intros E. inversion E. left. eexists. reflexivity.
    + destruct (negb (ok (mkResponse s (url login_request) p false))).
      * unfold Response_text, consumeBody, bind; cbn [bodyUsed payload].
        destruct p; cbn; intros E; inversion E; left; eexists; reflexivity.
      * unfold Response_json, consumeBody; cbn [bodyUsed payload].
        destruct p as [src |]; [| cbn; intros E; inversion E; left; eexists; reflexivity].
        unfold bind at 1. unfold bind at 1. unfold ret at 1.
        destruct (JSON_parse_text src) as [data |];
          [| cbn; intros E; inversion E; left; eexists; reflexivity].
        unfold ret at 1. unfold get_prop.
        destruct (nullish data);
          [cbn; intros E; inversion E; left; eexists; reflexivity |].
        unfold bind at 1. unfold ret at 1.
        destruct (truthy (prop data "token")) eqn:Ht.
        -- unfold bind at 1. unfold ret at 1. rewrite Ht. cbn.
           intros E. inversion E. right. exists dt. now split.
        -- unfold bind at 1. unfold ret at 1.
           destruct (truthy (prop data "access_token")); cbn; intros E; inversion E.
           ++ right. exists dt. now split.
           ++ left. eexists. reflexivity.
Qed.

Lemma authenticate_login (st : state) (s : N) (src : string) (data : value) (dt : Z) :
  cache_valid st = false ->
  truthy CLIENT_ID && truthy CLIENT_SECRET = true ->
  network (calls st) login_request = mkExchange (Resolved s (Some src)) dt ->
  success s = true ->
  JSON_parse_text src = Some data ->
  authenticate st =
    if nullish data then
      (Throw (Raised (TypeError_nullish data "token")), sent login_request dt st)
    else if truthy (token_of data) then
      (Ok (token_of data), stored (token_of data) (sent login_request dt st))
    else
      (Throw (Error "Resposta de autenticação não contém token JWT."),
       sent login_request dt st).
Proof.
  intros H Hc Hn Hs Hp. unfold authenticate.
  unfold bind at 1. unfold gets at 1. rewrite H.
  rewrite <- negb_andb, Hc. cbn [negb].
  unfold bind at 1. rewrite fetch_login. unfold transmit.
  rewrite Hn. cbn [outcome elapsed].
  unfold ok. cbn [status]. rewrite Hs. cbn [negb].
  unfold Response_json, consumeBody. cbn [bodyUsed payload].
  unfold bind at 1. unfold bind at 1. unfold ret at 1. rewrite Hp.
  unfold ret at 1. unfold get_prop.
  destruct (nullish data); [reflexivity |].
  unfold bind at 1. unfold ret at 1. unfold token_of.
  destruct (truthy (prop data "token")) eqn:Ht.
  - unfold bind at 1. unfold ret at 1. rewrite Ht. reflexivity.
  - unfold bind at 1. unfold ret at 1.
    destruct (truthy (prop data "access_token")); reflexivity.
Qed.

Lemma cache_valid_reusable (st : state) : cache_valid st = true <-> reusable st.
Proof.
  unfold cache_valid, reusable, before. split.
  - intros H. apply andb_prop in H. destruct H as [Ht Hb]. split; [assumption |].
    destruct (tokenExpiry st) as [e |]; [| discriminate].
    exists e. split; [reflexivity |]. now apply Z.ltb_lt.
  - intros [Ht (e & He & Hlt)]. rewrite Ht, He. now apply Z.ltb_lt.
Qed.

Lemma cons_neq {A : Type} (x : A) (l : list A) : l <> x :: l.
Proof.
  intros H. apply (f_equal (@length A)) in H. cbn in H. lia.
Qed.

(** C5: [authenticate] returns the cached token and leaves the state as it
    was (no request is sent) when there is a cached token and the clock is
    strictly before the expiry; whenever it returns a token without having
    sent a request, that condition held; and when it logs in instead and the
    provider answers with a token, the token is stored with the expiry set
    to the time of storing plus 55 minutes, after exactly one login
    request. *)
Theorem token_cache (st : state) :
  (reusable st -> authenticate st = (Ok (cachedToken st), st))
  /\ (forall token st1,
        authenticate st = (Ok token, st1) -> calls st1 = calls st -> reusable st)
  /\ (forall s src data dt,
        ~ reusable st ->
        truthy CLIENT_ID && truthy CLIENT_SECRET = true ->
        network (calls st) login_request = mkExchange (Resolved s (Some src)) dt ->
        success s = true ->
        JSON_parse_text src = Some data ->
        truthy (token_of data) = true ->
        exists st1,
          authenticate st = (Ok (token_of data), st1)
          /\ cachedToken st1 = token_of data
          /\ tokenExpiry st1 = Some (now st1 + 55 * 60 * 1000)%Z
          /\ now st1 = (now st + dt)%Z
          /\ calls st1 = login_request :: calls st).
Proof.
  split; [| split].
  - intros H. apply authenticate_cached. now apply cache_valid_reusable.
  - intros token st1 H Hcalls. apply cache_valid_reusable.
    destruct (cache_valid st) eqn:Hv; [reflexivity |].
    destruct (authenticate_not_cached st st1 (Ok token) Hv H) as [[e He] | [dt [Hc _]]].
    + discriminate.
    + rewrite Hcalls in Hc. now apply cons_neq in Hc.
  - intros s src data dt Hr Hc Hn Hs Hp Ht.
    assert (Hv : cache_valid st = false).
    { destruct (cache_valid st) eqn:Hv; [| reflexivity].
      now apply cache_valid_reusable in Hv. }
    rewrite (authenticate_login st s src data dt Hv Hc Hn Hs Hp).
    assert (Hd : nullish data = false).
    { destruct data; try reflexivity; discriminate. }
    rewrite Hd, Ht. eexists. split; [reflexivity |]. cbn. repeat split.
Qed.

(** C6: when the login request is answered with a success status and a
    JSON body, [authenticate] returns [data.token] if that is a token,
    otherwise [data.access_token] if that is one; it throws exactly when
    neither field yields a token. *)
Theorem login_token_field (st : state) (s : N) (src : string) (data : value) (dt : Z) :
  cache_valid st = false ->
  truthy CLIENT_ID && truthy CLIENT_SECRET = true ->
  network (calls st) login_request = mkExchange (Resolved s (Some src)) dt ->
  success s = true ->
  JSON_parse_text src = Some data ->
  (truthy (prop data "token") = true ->
   fst (authenticate st) = Ok (prop data "token"))
  /\ (truthy (prop data "token") = false ->
      truthy (prop data "access_token") = true ->
      fst (authenticate st) = Ok (prop data "access_token"))
  /\ ((exists e, fst (authenticate st) = Throw e) <->
      truthy (prop data "token") = false
      /\ truthy (prop data "access_token") = false).
Proof.
  intros Hv Hc Hn Hs Hp.
  rewrite (authenticate_login st s src data dt Hv Hc Hn Hs Hp).
  unfold token_of.
  destruct (nullish data) eqn:Hd.
  - assert (Hu : forall k, prop data k = VUndefined).
    { intros k. destruct data; try reflexivity; discriminate. }
    rewrite !Hu. cbn. split; [discriminate |]. split; [discriminate |].
    split; [now intros _ | intros _; eexists; reflexivity].
  - destruct (truthy (prop data "token")) eqn:Ht.
    + rewrite Ht. cbn. split; [reflexivity |]. split; [discriminate |].
      split; [intros [e He]; discriminate | intros [H _]; discriminate].
    + destruct (truthy (prop data "access_token")) eqn:Ha; cbn.
      * split; [discriminate |]. split; [reflexivity |].
        split; [intros [e He]; discriminate | intros [_ H]; discriminate].
      * split; [discriminate |]. split; [discriminate |].
        split; [now intros _ | intros _; eexists; reflexivity].
Qed.

(** ** [JSON.stringify] *)

Lemma nullish_serialized (v : value) :
  nullish v = false -> exists j, serialize v = Some j.
Proof. intros H. apply serialize_defined. intros ->. discriminate. Qed.

Lemma lookup_serialize_members (ps : list (string * value)) (k : string) :
  NoDup (map fst ps) ->
  lookup k (serialize_members ps) =
    match lookup k ps with
    | Some x => serialize x
    | None => None
    end.
Proof.
  induction ps as [| [k' x] ps IH]; intros Hd; [reflexivity |].
  inversion Hd as [| ? ? Hnotin Hrest]; subst.
  cbn [serialize_members lookup].
  destruct (serialize x) as [j |] eqn:Hs; cbn [lookup].
  - destruct (k' =? k); [now rewrite Hs | now apply IH].
  - rewrite (IH Hrest). destruct (k' =? k) eqn:E; [| reflexivity].
    apply String.eqb_eq in E. subst k'.
    assert (Hl : lookup k ps = None).
    { clear - Hnotin. induction ps as [| [k1 x1] ps IH1]; [reflexivity |].
      cbn in *. destruct (k1 =? k) eqn:E1.
      - apply String.eqb_eq in E1. tauto.
      - apply IH1. tauto. }
    now rewrite Hl, Hs.
Qed.

(** The members of the success body: each of the four names has what
    [JSON.stringify] writes for that property of the provider's data (nothing
    when the data has no such property); no other name has a member. *)
Lemma pix_body_members (data : value) (k : string) :
  member k (pix_body data) =
    if existsb (fun f => f =? k) pix_fields then serialize (prop data k) else None.
Proof.
  unfold pix_body, JSON_stringify, member.
  rewrite lookup_serialize_members.
  - unfold pix_fields. cbn [lookup existsb].
    destruct ("transaction_id" =? k) eqn:E1.
    { apply String.eqb_eq in E1. now subst k. }
    destruct ("qr_code_image" =? k) eqn:E2.
    { apply String.eqb_eq in E2. now subst k. }
    destruct ("pix_code" =? k) eqn:E3.
    { apply String.eqb_eq in E3. now subst k. }
    destruct ("status" =? k) eqn:E4.
    { apply String.eqb_eq in E4. now subst k. }
    reflexivity.
  - cbn. repeat constructor; cbn; intuition discriminate.
Qed.

Lemma deposit_error_truthy (data : value) : truthy (deposit_error data) = true.
Proof.
  unfold deposit_error.
  destruct (truthy (prop data "error")) eqn:He; [assumption |].
  destruct (truthy (prop data "message")) eqn:Hm; [assumption | reflexivity].
Qed.

Lemma truthy_serialized (v : value) : truthy v = true -> exists j, serialize v = Some j.
Proof. intros H. apply serialize_defined. intros ->. discriminate. Qed.

(** The two members of the body that forwards a refusal. *)
Lemma refusal_body_members (data : value) :
  nullish data = false ->
  member "error" (refusal_body data) = serialize (deposit_error data)
  /\ member "details" (refusal_body data) = serialize data
  /\ keys (refusal_body data) = ["error"; "details"].
Proof.
  intros Hn.
  destruct (truthy_serialized _ (deposit_error_truthy data)) as [e He].
  destruct (nullish_serialized _ Hn) as [d Hd].
  unfold refusal_body, JSON_stringify, member, keys. cbn [serialize_members].
  rewrite He, Hd. repeat split.
Qed.

(** ** The deposit *)

(** Past the validation, the [try] block authenticates and goes on with
    [deposit]. *)
Lemma process_valid (ev : event) (st : state) (v : value) :
  JSON_parse_text (body_source ev) = Some v ->
  truthy (prop v "amount") && truthy (prop v "external_id")
    && truthy (prop v "payer") = true ->
  process ev st =
    (token <- authenticate ;;
     deposit ev token (prop v "amount") (prop v "external_id") (prop v "payer")) st.
Proof.
  intros Hp Ht.
  assert (Hn : nullish v = false).
  { destruct v; try reflexivity; discriminate. }
  unfold process, JSON_parse. rewrite Hp.
  unfold bind at 1. cbn [ret].
  rewrite (bind_Ok _ _ _ _ _ (get_prop_defined v "amount" st Hn)).
  rewrite (bind_Ok _ _ _ _ _ (get_prop_defined v "external_id" st Hn)).
  rewrite (bind_Ok _ _ _ _ _ (get_prop_defined v "payer" st Hn)).
  rewrite <- !negb_andb, Ht. reflexivity.
Qed.

Lemma legal_header_value_app (a b : string) :
  legal_header_value (a ++ b) = legal_header_value a && legal_header_value b.
Proof.
  induction a as [| c a IH]; [reflexivity |].
  cbn [append legal_header_value]. now rewrite IH, andb_assoc.
Qed.

(** The deposit request passes [node-fetch]'s check exactly when the text of
    the token is a legal header value. *)
Lemma deposit_request_legal (ev : event) (bearer : string)
    (amount external_id payer : value) :
  illegal_header (deposit_request ev bearer amount external_id payer)
  = if legal_header_value bearer then None
    else Some ("Authorization", "Bearer " ++ bearer).
Proof.
  unfold illegal_header, deposit_request. cbn [req_headers find snd].
  rewrite legal_header_value_app.
  change (legal_header_value "Bearer ") with true. cbn [andb].
  now destruct (legal_header_value bearer).
Qed.

Section Deposit.
Variables (ev : event) (token amount external_id payer : value) (st : state).
Hypothesis Hsendable : sendable token = true.

Local Abbreviation rq :=
  (deposit_request ev (ToString token) amount external_id payer).

(** With a token that can be sent, [deposit] goes on from the network's
    answer. *)
Lemma deposit_sent :
  forall k : Response -> M http_response,
    (bearer <- template token ;;
     depositResponse <- fetch (deposit_request ev bearer amount external_id payer) ;;
     k depositResponse) st
    = (depositResponse <- transmit rq ;; k depositResponse) st.
Proof.
  intros k. unfold sendable in Hsendable.
  apply andb_prop in Hsendable. destruct Hsendable as [Hc Hl].
  rewrite (bind_Ok _ _ _ _ _ (template_converts token st Hc)).
  rewrite fetch_legal; [reflexivity |].
  rewrite deposit_request_legal. now rewrite Hl.
Qed.

(** The provider answers with a JSON value other than [null]. *)
Lemma deposit_answered (s : N) (src : string) (data : value) (dt : Z) :
  network (calls st) rq = mkExchange (Resolved s (Some src)) dt ->
  JSON_parse_text src = Some data ->
  nullish data = false ->
  deposit ev token amount external_id payer st =
    (Ok (if success s then mkHttp 200 (Some cors_headers) (pix_body data)
         else mkHttp s (Some cors_headers) (refusal_body data)),
     sent rq dt st).
Proof.
  intros Hn Hp Hd. unfold deposit. rewrite deposit_sent.
  unfold bind at 1. unfold transmit. rewrite Hn. cbn [outcome elapsed].
  unfold bind at 1. unfold try_catch, Response_json, consumeBody.
  cbn [bodyUsed payload]. unfold bind at 1. unfold ret at 1. rewrite Hp.
  unfold ret at 1. unfold ok. cbn [status].
  destruct (success s); cbn [negb].
  - rewrite !(bind_Ok _ _ _ _ _ (get_prop_defined data _ _ Hd)). reflexivity.
  - rewrite (bind_Ok _ _ _ _ _ (get_prop_defined data "error" _ Hd)).
    unfold refusal_body, deposit_error.
    destruct (truthy (prop data "error")).
    + reflexivity.
    + unfold bind at 1.
      rewrite (bind_Ok _ _ _ _ _ (get_prop_defined data "message" _ Hd)).
      destruct (truthy (prop data "message")); reflexivity.
Qed.

(** The provider answers with the JSON text [null]: reading the first
    property of the data throws. *)
Lemma deposit_null (s : N) (src : string) (data : value) (dt : Z) :
  network (calls st) rq = mkExchange (Resolved s (Some src)) dt ->
  JSON_parse_text src = Some data ->
  nullish data = true ->
  deposit ev token amount external_id payer st =
    (Throw (Raised (TypeError_nullish data
                      (if success s then "transaction_id" else "error"))),
     sent rq dt st).
Proof.
  intros Hn Hp Hd. unfold deposit. rewrite deposit_sent.
  unfold bind at 1. unfold transmit. rewrite Hn. cbn [outcome elapsed].
  unfold bind at 1. unfold try_catch, Response_json, consumeBody.
  cbn [bodyUsed payload]. unfold bind at 1. unfold ret at 1. rewrite Hp.
  unfold ret at 1. unfold ok. cbn [status].
  destruct (success s); cbn [negb].
  - now rewrite (bind_Throw _ _ _ _ _ (get_prop_nullish data "transaction_id" _ Hd)).
  - now rewrite (bind_Throw _ _ _ _ _ (get_prop_nullish data "error" _ Hd)).
Qed.

(** The deposit request fails on the network. *)
Lemma deposit_unreachable (reason : string) (dt : Z) :
  network (calls st) rq = mkExchange (Rejected reason) dt ->
  deposit ev token amount external_id payer st =
    (Throw (Raised (FetchError_request (url rq) reason)), sent rq dt st).
Proof.
  intros Hn. unfold deposit. rewrite deposit_sent.
  unfold bind at 1. unfold transmit. now rewrite Hn.
Qed.

(** The provider's body is not JSON: [json()] fails, and so does the
    [text()] of the inner [catch], whose body was read already; the error
    that leaves the block is that TypeError. *)
Lemma deposit_not_json (s : N) (src : string) (dt : Z) :
  network (calls st) rq = mkExchange (Resolved s (Some src)) dt ->
  JSON_parse_text src = None ->
  deposit ev token amount external_id payer st =
    (Throw (Raised (TypeError_body_used (url rq))), sent rq dt st).
Proof.
  intros Hn Hp. unfold deposit. rewrite deposit_sent.
  unfold bind at 1. unfold transmit. rewrite Hn. cbn [outcome elapsed].
  unfold bind at 1. unfold try_catch, Response_json, consumeBody.
  cbn [bodyUsed payload]. unfold bind at 1. unfold ret at 1. rewrite Hp.
  reflexivity.
Qed.

(** The body stream of the provider's answer fails. *)
Lemma deposit_unreadable (s : N) (dt : Z) :
  network (calls st) rq = mkExchange (Resolved s None) dt ->
  deposit ev token amount external_id payer st =
    (Throw (Raised (TypeError_body_used (url rq))), sent rq dt st).
Proof.
  intros Hn. unfold deposit. rewrite deposit_sent.
  unfold bind at 1. unfold transmit. rewrite Hn. cbn [outcome elapsed].
  unfold bind at 1. unfold try_catch, Response_json, consumeBody.
  reflexivity.
Qed.

End Deposit.

(** A token that cannot be sent: the template literal or [node-fetch]'s
    check throws a TypeError, and no request goes out. *)
Lemma deposit_unsendable (ev : event) (token amount external_id payer : value)
    (st : state) :
  sendable token = false ->
  exists x,
    deposit ev token amount external_id payer st = (Throw (Raised x), st).
Proof.
  intros H. unfold sendable in H. unfold deposit.
  destruct (converts token) eqn:Hc.
  - cbn [andb] in H.
    rewrite (bind_Ok _ _ _ _ _ (template_converts token st Hc)).
    eexists. apply bind_Throw.
    apply (fetch_illegal _ "Authorization" ("Bearer " ++ ToString token)).
    rewrite deposit_request_legal. now rewrite H.
  - eexists. apply bind_Throw. now apply template_fails.
Qed.

(** C7, as the code has it: when the deposit request of a [POST] is sent
    (the token converts to a legal header value) and is answered with a
    status outside 200-299 and a JSON body other than [null], the handler
    returns that status, with the CORS headers and a body of exactly two
    members: [error], which is the provider's [error], else its [message],
    else the default text, and [details], which is the provider's parsed
    body; both as [JSON.stringify] writes them (a number parsed as an
    infinity is written [null], [-0] is written [0]). *)
Theorem refused_deposit_is_forwarded (ev : event) (st st1 : state)
    (v token data : value) (s : N) (src : string) (dt : Z) :
  httpMethod ev = "POST" ->
  JSON_parse_text (body_source ev) = Some v ->
  complete v = true ->
  authenticate st = (Ok token, st1) ->
  sendable token = true ->
  network (calls st1) (deposit_of ev token v)
    = mkExchange (Resolved s (Some src)) dt ->
  success s = false ->
  JSON_parse_text src = Some data ->
  nullish data = false ->
  exists r,
    handler ev st = (Ok r, sent (deposit_of ev token v) dt st1)
    /\ statusCode r = s
    /\ resp_headers r = Some cors_headers
    /\ member "error" (resp_body r) = serialize (deposit_error data)
    /\ member "details" (resp_body r) = serialize data
    /\ keys (resp_body r) = ["error"; "details"].
Proof.
  intros Hm Hp Ht Ha Hsend Hn Hs Hd Hnn.
  eexists. split.
  - apply handler_returned; [assumption |].
    rewrite (process_valid ev st v Hp Ht).
    rewrite (bind_Ok _ _ _ _ _ Ha).
    exact (deposit_answered _ _ _ _ _ _ Hsend s src data dt Hn Hd Hnn).
  - rewrite Hs. cbn [statusCode resp_headers resp_body].
    split; [reflexivity |]. split; [reflexivity |].
    now apply refusal_body_members.
Qed.

(** C8, as the code has it: when the deposit request of a [POST] is sent
    (the token converts to a legal header value) and is answered with a
    status in 200-299 and a JSON body other than [null], the handler returns
    [200] with the CORS headers and a JSON object in which each of
    [transaction_id], [qr_code_image], [pix_code] and [status] is a member
    exactly when the provider's body has it, with the provider's value as
    [JSON.stringify] writes it (a number parsed as an infinity is written
    [null], [-0] is written [0]), and which has no other member. *)
Theorem accepted_deposit_is_trimmed (ev : event) (st st1 : state)
    (v token data : value) (s : N) (src : string) (dt : Z) :
  httpMethod ev = "POST" ->
  JSON_parse_text (body_source ev) = Some v ->
  complete v = true ->
  authenticate st = (Ok token, st1) ->
  sendable token = true ->
  network (calls st1) (deposit_of ev token v)
    = mkExchange (Resolved s (Some src)) dt ->
  success s = true ->
  JSON_parse_text src = Some data ->
  nullish data = false ->
  exists r ms,
    handler ev st = (Ok r, sent (deposit_of ev token v) dt st1)
    /\ statusCode r = 200%N
    /\ resp_headers r = Some cors_headers
    /\ resp_body r = Document (VObj ms)
    /\ (forall k,
          member k (resp_body r) =
            if existsb (fun f => f =? k) pix_fields
            then serialize (prop data k) else None)
    /\ (forall k,
          has_member k (resp_body r) = true <->
          In k pix_fields /\ prop data k <> VUndefined).
Proof.
  intros Hm Hp Ht Ha Hsend Hn Hs Hd Hnn.
  eexists _, _. split.
  - apply handler_returned; [assumption |].
    rewrite (process_valid ev st v Hp Ht).
    rewrite (bind_Ok _ _ _ _ _ Ha).
    exact (deposit_answered _ _ _ _ _ _ Hsend s src data dt Hn Hd Hnn).
  - rewrite Hs. cbn [statusCode resp_headers resp_body].
    split; [reflexivity |]. split; [reflexivity |]. split; [reflexivity |].
    split; [intros k; apply pix_body_members |].
    intros k.
    assert (Hhas : has_member k (pix_body data)
                   = match member k (pix_body data) with
                     | Some _ => true
                     | None => false
                     end) by reflexivity.
    rewrite Hhas, pix_body_members.
    destruct (existsb (fun f => f =? k) pix_fields) eqn:Hin.
    + apply existsb_exists in Hin. destruct Hin as (f & Hf & Hfk).
      apply String.eqb_eq in Hfk. subst f.
      destruct (prop data k) eqn:Hk; cbn [serialize]; split;
        try (intros _; split; [assumption | discriminate]);
        try discriminate; try reflexivity.
      intros [_ Hu]. now elim Hu.
    + split; [discriminate |]. intros [Hf _].
      assert (Hex : existsb (fun f => f =? k) pix_fields = true).
      { apply existsb_exists. exists k. split; [assumption | apply String.eqb_refl]. }
      congruence.
Qed.

(** ** The top-level [catch] *)

(** Every response of the [try] block has a JSON object as its body. *)
Lemma process_body (ev : event) (st st1 : state) (r : http_response) :
  process ev st = (Ok r, st1) -> exists ms, resp_body r = Document (VObj ms).
Proof.
  intros H. unfold process in H. run_Ok H; eexists; reflexivity.
Qed.

(** C9: whatever error the [try] block of a [POST] request throws, the
    handler catches it, reports it on the console and returns [500] with the
    CORS headers and a JSON body of two members, the generic [error] text
    and, as [details], the message of the error; and in every case the
    handler returns a response whose body is a JSON object. *)
Theorem top_level_catch (ev : event) (st : state) :
  httpMethod ev = "POST" ->
  (forall e st1,
     process ev st = (Throw e, st1) ->
     exists r,
       handler ev st = (Ok r, reported e st1)
       /\ statusCode r = 500%N
       /\ resp_headers r = Some cors_headers
       /\ resp_body r =
            Document (VObj [ ("error", VStr "Erro interno do servidor ao processar PIX.");
                             ("details", VStr (message e)) ]))
  /\ exists r st1 ms,
       handler ev st = (Ok r, st1) /\ resp_body r = Document (VObj ms).
Proof.
  intros Hm. split.
  - intros e st1 Hp. exists (internal_error (message e)). split.
    + now apply handler_caught.
    + repeat split.
  - destruct (process ev st) as [[r | e] st1] eqn:Hp.
    + destruct (process_body ev st st1 r Hp) as [ms Hb].
      exists r, st1, ms. split; [now apply handler_returned | assumption].
    + eexists _, _, _. split; [now apply handler_caught; eauto | reflexivity].
Qed.

(** The errors of the authenticator, as the [try] block sees them. *)

Lemma authenticate_unreachable (st : state) (reason : string) (dt : Z) :
  cache_valid st = false ->
  truthy CLIENT_ID && truthy CLIENT_SECRET = true ->
  network (calls st) login_request = mkExchange (Rejected reason) dt ->
  authenticate st =
    (Throw (Raised (FetchError_request (url login_request) reason)),
     sent login_request dt st).
Proof.
  intros H Hc Hn. unfold authenticate.
  unfold bind at 1. unfold gets at 1. rewrite H.
  rewrite <- negb_andb, Hc. cbn [negb].
  unfold bind at 1. rewrite fetch_login. unfold transmit. now rewrite Hn.
Qed.

Lemma authenticate_refused (st : state) (s : N) (errorText : string) (dt : Z) :
  cache_valid st = false ->
  truthy CLIENT_ID && truthy CLIENT_SECRET = true ->
  network (calls st) login_request = mkExchange (Resolved s (Some errorText)) dt ->
  success s = false ->
  authenticate st =
    (Throw (Error ("Falha na autenticação (Status " ++ decimal s ++ "): " ++ errorText)),
     sent login_request dt st).
Proof.
  intros H Hc Hn Hs. unfold authenticate.
  unfold bind at 1. unfold gets at 1. rewrite H.
  rewrite <- negb_andb, Hc. cbn [negb].
  unfold bind at 1. rewrite fetch_login. unfold transmit.
  rewrite Hn. cbn [outcome elapsed].
  unfold ok. cbn [status]. rewrite Hs. reflexivity.
Qed.

(** A valid order whose authentication fails is answered [500], with the
    authenticator's error as [details]: missing credentials, a refused
    login, an unreachable provider. *)
Lemma handler_authentication_failed (ev : event) (st st1 : state) (v : value) (e : exn) :
  httpMethod ev = "POST" ->
  JSON_parse_text (body_source ev) = Some v ->
  truthy (prop v "amount") && truthy (prop v "external_id")
    && truthy (prop v "payer") = true ->
  authenticate st = (Throw e, st1) ->
  handler ev st = (Ok (internal_error (message e)), reported e st1).
Proof.
  intros Hm Hp Ht Ha. apply handler_caught; [assumption |].
  rewrite (process_valid ev st v Hp Ht). now apply bind_Throw.
Qed.

(** A valid, authenticated order whose deposit request fails on the network
    is answered [500]. *)
Lemma handler_deposit_unreachable (ev : event) (st st1 : state) (v token : value)
    (reason : string) (dt : Z) :
  httpMethod ev = "POST" ->
  JSON_parse_text (body_source ev) = Some v ->
  complete v = true ->
  authenticate st = (Ok token, st1) ->
  sendable token = true ->
  network (calls st1) (deposit_of ev token v) = mkExchange (Rejected reason) dt ->
  exists e st2,
    handler ev st = (Ok (internal_error (message e)), reported e st2).
Proof.
  intros Hm Hp Ht Ha Hsend Hn. eexists _, _. apply handler_caught; [assumption |].
  rewrite (process_valid ev st v Hp Ht). rewrite (bind_Ok _ _ _ _ _ Ha).
  exact (deposit_unreachable _ _ _ _ _ _ Hsend reason dt Hn).
Qed.

(** A deposit answer that is not JSON is answered [500]; the error reported
    is the TypeError of the second read of the body. *)
Lemma handler_deposit_not_json (ev : event) (st st1 : state) (v token : value)
    (s : N) (src : string) (dt : Z) :
  httpMethod ev = "POST" ->
  JSON_parse_text (body_source ev) = Some v ->
  complete v = true ->
  authenticate st = (Ok token, st1) ->
  sendable token = true ->
  network (calls st1) (deposit_of ev token v)
    = mkExchange (Resolved s (Some src)) dt ->
  JSON_parse_text src = None ->
  exists st2,
    handler ev st =
      (Ok (internal_error
             (message (Raised (TypeError_body_used (API_URL ++ "/api/payments/deposit"))))),
       st2).
Proof.
  intros Hm Hp Ht Ha Hsend Hn Hs. eexists. apply handler_caught; [assumption |].
  rewrite (process_valid ev st v Hp Ht). rewrite (bind_Ok _ _ _ _ _ Ha).
  exact (deposit_not_json _ _ _ _ _ _ Hsend s src dt Hn Hs).
Qed.

(** A deposit answer whose JSON body is [null] is answered [500], whatever
    the provider's status: the first property read from it throws. *)
Lemma handler_deposit_null (ev : event) (st st1 : state) (v token : value)
    (s : N) (src : string) (dt : Z) :
  httpMethod ev = "POST" ->
  JSON_parse_text (body_source ev) = Some v ->
  complete v = true ->
  authenticate st = (Ok token, st1) ->
  sendable token = true ->
  network (calls st1) (deposit_of ev token v)
    = mkExchange (Resolved s (Some src)) dt ->
  JSON_parse_text src = Some VNull ->
  exists e st2,
    handler ev st = (Ok (internal_error (message e)), reported e st2).
Proof.
  intros Hm Hp Ht Ha Hsend Hn Hs. eexists _, _. apply handler_caught; [assumption |].
  rewrite (process_valid ev st v Hp Ht). rewrite (bind_Ok _ _ _ _ _ Ha).
  exact (deposit_null _ _ _ _ _ _ Hsend s src VNull dt Hn Hs eq_refl).
Qed.

(** A token that cannot be sent is answered [500] with only the requests
    of the authentication made. *)
Lemma handler_unsendable_token (ev : event) (st st1 : state) (v token : value) :
  httpMethod ev = "POST" ->
  JSON_parse_text (body_source ev) = Some v ->
  complete v = true ->
  authenticate st = (Ok token, st1) ->
  sendable token = false ->
  exists x,
    handler ev st
    = (Ok (internal_error (message (Raised x))), reported (Raised x) st1).
Proof.
  intros Hm Hp Ht Ha Hsend.
  destruct (deposit_unsendable ev token (prop v "amount") (prop v "external_id")
              (prop v "payer") st1 Hsend) as [x Hx].
  exists x. apply handler_caught; [assumption |].
  rewrite (process_valid ev st v Hp Ht). now rewrite (bind_Ok _ _ _ _ _ Ha).
Qed.

(** ** Bodies that are not an order *)

(** What [deposit] returns is either the success answer or a body with a
    [details] member. *)
Lemma deposit_Ok_inv (ev : event) (token amount external_id payer : value)
    (st st1 : state) (r : http_response) :
  deposit ev token amount external_id payer st = (Ok r, st1) ->
  statusCode r = 200%N \/ has_member "details" (resp_body r) = true.
Proof.
  unfold deposit. intros H.
  apply bind_Ok_inv in H. destruct H as (bearer & s0 & _ & H).
  apply bind_Ok_inv in H. destruct H as (resp & s1 & _ & H).
  apply bind_Ok_inv in H. destruct H as (data & s2 & _ & H).
  destruct (negb (ok resp)).
  - apply bind_Ok_inv in H. destruct H as (e1 & s3 & He1 & H).
    apply get_prop_Ok_inv in He1. destruct He1 as (Hn & _ & _).
    apply bind_Ok_inv in H. destruct H as (err & s4 & _ & H).
    inversion H; subst. right.
    destruct (serialize_defined data) as [j Hj].
    { intros ->. discriminate. }
    unfold has_member, JSON_stringify. cbn [resp_body serialize_members].
    rewrite Hj. now destruct (serialize err).
  - left. run_Ok H. reflexivity.
Qed.

(** C10: a [POST] whose body is not JSON is answered [500] by the top-level
    [catch], from the SyntaxError of [JSON.parse]; so is a [POST] whose body
    is absent ([null]), from the TypeError of the destructuring; the [500]
    answer is never the [400] one; and the [400] answer of the validation is
    returned only when the body parses to a JSON value other than [null]
    with a falsy (possibly missing) [amount], [external_id] or [payer]. *)
Theorem unparsable_body_is_500 (ev : event) (st : state) :
  httpMethod ev = "POST" ->
  JSON_parse_text "null" = Some VNull ->
  (JSON_parse_text (body_source ev) = None ->
   handler ev st =
     (Ok (internal_error (message (Raised (SyntaxError_JSON (body_source ev))))),
      reported (Raised (SyntaxError_JSON (body_source ev))) st))
  /\ (body ev = None ->
      handler ev st =
        (Ok (internal_error (message (Raised (TypeError_nullish VNull "amount")))),
         reported (Raised (TypeError_nullish VNull "amount")) st))
  /\ (forall details,
        statusCode (internal_error details) = 500%N
        /\ internal_error details <> incomplete)
  /\ (forall st1,
        handler ev st = (Ok incomplete, st1) ->
        exists v,
          JSON_parse_text (body_source ev) = Some v
          /\ v <> VNull
          /\ truthy (prop v "amount") && truthy (prop v "external_id")
               && truthy (prop v "payer") = false).
Proof.
  intros Hm Hnull. split; [| split; [| split]].
  - intros Hbad. apply handler_caught; [assumption |]. now apply process_unparsable.
  - intros Habsent. apply handler_caught; [assumption |].
    apply process_nullish; [| reflexivity].
    unfold body_source. now rewrite Habsent.
  - intros details. split; [reflexivity | discriminate].
  - intros st1 H. rewrite (handler_POST _ _ Hm) in H. unfold try_catch in H.
    destruct (process ev st) as [[r | e] s'] eqn:Hp; [| discriminate].
    inversion H; subst r s'. clear H.
    destruct (JSON_parse_text (body_source ev)) as [v |] eqn:Hv;
      [| rewrite (process_unparsable _ _ Hv) in Hp; discriminate].
    destruct (nullish v) eqn:Hn;
      [rewrite (process_nullish _ _ _ Hv Hn) in Hp; discriminate |].
    exists v. split; [reflexivity |]. split; [intros ->; discriminate |].
    destruct (truthy (prop v "amount") && truthy (prop v "external_id")
              && truthy (prop v "payer")) eqn:Ht; [| reflexivity].
    rewrite (process_valid _ _ _ Hv Ht) in Hp.
    apply bind_Ok_inv in Hp. destruct Hp as (token & s2 & _ & Hd).
    apply deposit_Ok_inv in Hd. destruct Hd as [H200 | Hdet]; discriminate.
Qed.

End Properties.

(** ** Runs in the sample environment *)

(** A charge is created from a cold start: one login request, then the
    deposit request; the answer keeps the four fields and drops [fee]. *)
Example charge_from_cold :
  exists st1,
    handler (env := accepting) (post order_source) cold
    = (Ok (mkHttp 200 (Some cors_headers)
             (Document (VObj [ ("transaction_id", VStr "t1");
                               ("qr_code_image", VStr "img");
                               ("pix_code", VStr "pix");
                               ("status", VStr "PENDING") ]))), st1)
    /\ map url (calls st1)
       = [ "https://api.instapaybr.com/api/payments/deposit";
           "https://api.instapaybr.com/api/auth/login" ]
    /\ cachedToken st1 = VStr "jwt"
    /\ tokenExpiry st1 = Some 3301120%Z.
Proof. eexists. split; [vm_compute; reflexivity | repeat split]. Qed.

(** A second charge within the validity of the token sends the deposit
    request only. *)
Example charge_again :
  let st1 := snd (handler (env := accepting) (post order_source) cold) in
  let st2 := snd (handler (env := accepting) (post order_source) st1) in
  map url (calls st2)
  = [ "https://api.instapaybr.com/api/payments/deposit";
      "https://api.instapaybr.com/api/payments/deposit";
      "https://api.instapaybr.com/api/auth/login" ].
Proof. vm_compute. reflexivity. Qed.

(** The refusal [402] with [{"error":"insufficient_funds"}] is forwarded. *)
Example charge_refused :
  fst (handler (env := refusing) (post order_source) cold)
  = Ok (mkHttp 402 (Some cors_headers)
          (Document (VObj [ ("error", VStr "insufficient_funds");
                            ("details", VObj [("error", VStr "insufficient_funds")]) ]))).
Proof. vm_compute. reflexivity. Qed.

(** C2, refuted as stated: the answer to a [GET] request has no [headers]
    property at all. *)
Lemma GET_answer_has_no_headers :
  handler (env := offline) (mkEvent "GET" [("host", "shop.example")] None) cold
  = (Ok (mkHttp 405 None
           (Document (VObj [("error", VStr "Método não permitido. Use POST.")]))),
     cold).
Proof. vm_compute. reflexivity. Qed.

(** C4, refuted as stated: the body [null] is JSON and has none of the three
    fields, yet the answer is [500], from the TypeError of the
    destructuring. *)
Lemma null_order_is_500 :
  fst (handler (env := offline) (post "null") cold)
  = Ok (mkHttp 500 (Some cors_headers)
          (Document (VObj [ ("error", VStr "Erro interno do servidor ao processar PIX.");
                            ("details",
                              VStr "Cannot read properties of null (reading 'amount')") ]))).
Proof. vm_compute. reflexivity. Qed.

(** C7, refuted as stated: the provider refuses the deposit with [402] and
    the JSON body [null]; the handler answers [500], not [402]. *)
Lemma null_refusal_is_500 :
  fst (handler (env := sample_env (answers 200 login_source) (answers 402 "null"))
         (post order_source) cold)
  = Ok (mkHttp 500 (Some cors_headers)
          (Document (VObj [ ("error", VStr "Erro interno do servidor ao processar PIX.");
                            ("details",
                              VStr "Cannot read properties of null (reading 'error')") ]))).
Proof. vm_compute. reflexivity. Qed.

(** C8, refuted as stated: the provider accepts the deposit with [200] and
    the JSON body [{}], and the handler's body is the empty object, with
    none of the four fields; with the JSON body [null] the answer is
    [500]. *)
Lemma empty_charge_has_no_fields :
  fst (handler (env := sample_env (answers 200 login_source) (answers 200 "{}"))
         (post order_source) cold)
  = Ok (mkHttp 200 (Some cors_headers) (Document (VObj [])))
  /\ fst (handler (env := sample_env (answers 200 login_source) (answers 200 "null"))
            (post order_source) cold)
     = Ok (mkHttp 500 (Some cors_headers)
             (Document (VObj [ ("error", VStr "Erro interno do servidor ao processar PIX.");
                               ("details",
                                 VStr "Cannot read properties of null (reading 'transaction_id')") ]))).
Proof. split; vm_compute; reflexivity. Qed.

(** A refusal whose body holds [1e400]: the number is parsed as an infinity
    and [details] has [null] in its place. *)
Example overflow_refusal_details :
  fst (handler (env := extreme (answers 402 overflow_source)) (post order_source) cold)
  = Ok (mkHttp 402 (Some cors_headers)
          (Document (VObj [ ("error", VStr "limit");
                            ("details",
                              VObj [("error", VStr "limit"); ("limit", VNull)]) ]))).
Proof. vm_compute. reflexivity. Qed.

(** A charge whose [status] is [-0] is returned with [status] [0]. *)
Example signed_charge_status :
  fst (handler (env := extreme (answers 200 signed_source)) (post order_source) cold)
  = Ok (mkHttp 200 (Some cors_headers)
          (Document (VObj [ ("transaction_id", VStr "t1");
                            ("status", VNum PrimFloat.zero) ]))).
Proof. vm_compute. reflexivity. Qed.

(** A login token that ends in a line feed is no legal header value: the
    deposit request is never sent and the answer is [500], though the
    provider would have accepted the deposit. *)
Example broken_token_is_500 :
  exists st',
    handler (env := careless) (post order_source) cold
    = (Ok (internal_error
             ("Bearer jwt" ++ String (ascii_of_nat 10) ""
              ++ " is not a legal HTTP header value")), st')
    /\ map url (calls st') = ["https://api.instapaybr.com/api/auth/login"]
    /\ cachedToken st' = broken_token.
Proof. eexists. split; [vm_compute; reflexivity | split; reflexivity]. Qed.

(** ** The theorems at concrete inputs *)

(** A refused charge carries the headers; the answer to [PUT] has none. *)
Lemma cors_headers_by_method_witness :
  (exists r st1,
     handler (env := refusing) (post order_source) cold = (Ok r, st1)
     /\ resp_headers r = Some cors_headers)
  /\ (exists r,
        handler (env := refusing) (mkEvent "PUT" [] None) cold = (Ok r, cold)
        /\ resp_headers r = None).
Proof.
  pose proof (cors_headers_by_method (env := refusing) (post order_source) cold) as HP.
  pose proof (cors_headers_by_method (env := refusing) (mkEvent "PUT" [] None) cold) as HO.
  split.
  - apply (proj1 HP). reflexivity.
  - apply (proj2 HO); cbn; discriminate.
Defined.

(** [GET] is answered [405] and the cold state is left as it was. *)
Lemma handler_other_method_witness :
  exists r,
    handler (env := offline) (mkEvent "GET" [] None) cold = (Ok r, cold)
    /\ statusCode r = 405%N
    /\ has_member "error" (resp_body r) = true.
Proof.
  apply (handler_other_method (env := offline) (mkEvent "GET" [] None) cold);
    cbn; discriminate.
Defined.

(** An order without [amount] is answered [400] with the provider offline:
    nothing was sent. *)
Lemma missing_field_is_400_witness :
  exists r,
    handler (env := offline) (post partial_order_source) cold = (Ok r, cold)
    /\ statusCode r = 400%N
    /\ has_member "error" (resp_body r) = true.
Proof.
  apply (missing_field_is_400 (env := offline) (post partial_order_source) cold
           partial_order).
  - reflexivity.
  - vm_compute. reflexivity.
  - reflexivity.
  - left. reflexivity.
Defined.

(** The warm state reuses its token; the cold state logs in and stores the
    token until 55 minutes after the answer. *)
Lemma token_cache_witness :
  authenticate (env := accepting) warm = (Ok (VStr "jwt"), warm)
  /\ exists st1,
       authenticate (env := accepting) cold = (Ok (VStr "jwt"), st1)
       /\ cachedToken st1 = VStr "jwt"
       /\ tokenExpiry st1 = Some (now st1 + 55 * 60 * 1000)%Z
       /\ now st1 = (now cold + 120)%Z
       /\ calls st1 = login_request (env := accepting) :: calls cold.
Proof.
  split.
  - apply (proj1 (token_cache (env := accepting) warm)).
    split; [reflexivity |]. exists 5000%Z. split; [reflexivity | reflexivity].
  - apply (proj2 (proj2 (token_cache (env := accepting) cold))
             200%N login_source login_data 120%Z).
    + intros [H _]. discriminate.
    + reflexivity.
    + reflexivity.
    + reflexivity.
    + vm_compute. reflexivity.
    + reflexivity.
Defined.

(** A login answer with [access_token] only yields that token. *)
Lemma login_token_field_witness :
  fst (authenticate (env := renamed) cold) = Ok (VStr "jwt2").
Proof.
  apply (login_token_field (env := renamed) cold 200%N login_source' login_data' 120%Z).
  - reflexivity.
  - reflexivity.
  - reflexivity.
  - reflexivity.
  - vm_compute. reflexivity.
  - reflexivity.
  - reflexivity.
Defined.

(** The refusal [402] with [insufficient_funds] is forwarded. *)
Lemma refused_deposit_is_forwarded_witness :
  exists r,
    handler (env := refusing) (post order_source) cold
    = (Ok r, sent (deposit_of (env := refusing) (post order_source) (VStr "jwt") order)
               120 (snd (authenticate (env := refusing) cold)))
    /\ statusCode r = 402%N
    /\ resp_headers r = Some cors_headers
    /\ member "error" (resp_body r) = Some (VStr "insufficient_funds")
    /\ member "details" (resp_body r) = Some refusal
    /\ keys (resp_body r) = ["error"; "details"].
Proof.
  apply (refused_deposit_is_forwarded (env := refusing) (post order_source) cold
           (snd (authenticate (env := refusing) cold))
           order (VStr "jwt") refusal 402%N refusal_source 120%Z).
  - reflexivity.
  - vm_compute. reflexivity.
  - reflexivity.
  - vm_compute. reflexivity.
  - reflexivity.
  - vm_compute. reflexivity.
  - reflexivity.
  - vm_compute. reflexivity.
  - reflexivity.
Defined.

(** An accepted charge is trimmed to the four fields. *)
Lemma accepted_deposit_is_trimmed_witness :
  exists r ms,
    handler (env := accepting) (post order_source) cold
    = (Ok r, sent (deposit_of (env := accepting) (post order_source) (VStr "jwt") order)
               120 (snd (authenticate (env := accepting) cold)))
    /\ statusCode r = 200%N
    /\ resp_headers r = Some cors_headers
    /\ resp_body r = Document (VObj ms)
    /\ (forall k,
          member k (resp_body r) =
            if existsb (fun f => f =? k) pix_fields
            then serialize (prop charge k) else None)
    /\ (forall k,
          has_member k (resp_body r) = true <->
          In k pix_fields /\ prop charge k <> VUndefined).
Proof.
  apply (accepted_deposit_is_trimmed (env := accepting) (post order_source) cold
           (snd (authenticate (env := accepting) cold))
           order (VStr "jwt") charge 200%N charge_source 120%Z).
  - reflexivity.
  - vm_compute. reflexivity.
  - reflexivity.
  - vm_compute. reflexivity.
  - reflexivity.
  - vm_compute. reflexivity.
  - reflexivity.
  - vm_compute. reflexivity.
  - reflexivity.
Defined.

(** With the provider offline the login request is rejected, and the
    handler answers [500] with the message of that error. *)
Lemma top_level_catch_witness :
  exists r,
    handler (env := offline) (post order_source) cold
    = (Ok r,
       reported (env := offline)
         (Raised (FetchError_request "https://api.instapaybr.com/api/auth/login"
                    "ECONNREFUSED"))
         (sent (login_request (env := offline)) 30 cold))
    /\ statusCode r = 500%N
    /\ resp_headers r = Some cors_headers
    /\ resp_body r =
         Document (VObj [ ("error", VStr "Erro interno do servidor ao processar PIX.");
                          ("details",
                            VStr "request to https://api.instapaybr.com/api/auth/login failed, reason: ECONNREFUSED") ]).
Proof.
  apply (proj1 (top_level_catch (env := offline) (post order_source) cold eq_refl)
           (Raised (FetchError_request "https://api.instapaybr.com/api/auth/login"
                      "ECONNREFUSED"))
           (sent (login_request (env := offline)) 30 cold)).
  vm_compute. reflexivity.
Defined.

(** A body that is not JSON, and an absent body, are answered [500]. *)
Lemma unparsable_body_is_500_witness :
  handler (env := offline) (post "{amount:") cold
  = (Ok (internal_error "Unexpected token in JSON"),
     reported (env := offline) (Raised (SyntaxError_JSON "{amount:")) cold)
  /\ handler (env := offline) (mkEvent "POST" [] None) cold
     = (Ok (internal_error "Cannot read properties of null (reading 'amount')"),
        reported (env := offline) (Raised (TypeError_nullish VNull "amount")) cold).
Proof.
  pose proof (unparsable_body_is_500 (env := offline) (post "{amount:") cold
                eq_refl eq_refl) as H1.
  pose proof (unparsable_body_is_500 (env := offline) (mkEvent "POST" [] None) cold
                eq_refl eq_refl) as H2.
  split.
  - apply (proj1 H1). reflexivity.
  - apply (proj1 (proj2 H2)). reflexivity.
Defined.

(** ** Further properties: every way a run can go *)

Section Outcomes.
Context {env : Env}.

(** Every way [authenticate] can end. *)
Lemma authenticate_cases (st st1 : state) (r : result value) :
  authenticate st = (r, st1) ->
  (cache_valid st = true /\ r = Ok (cachedToken st) /\ st1 = st)
  \/ (cache_valid st = false
      /\ truthy CLIENT_ID && truthy CLIENT_SECRET = false
      /\ r = Throw (Error credentials_message) /\ st1 = st)
  \/ (cache_valid st = false
      /\ truthy CLIENT_ID && truthy CLIENT_SECRET = true
      /\ exists dt,
           (st1 = sent login_request dt st
            /\ ((exists s errorText,
                   success s = false /\ r = Throw (Error (refused_message s errorText)))
                \/ r = Throw (Error no_token_message)
                \/ exists x, r = Throw (Raised x)))
           \/ (exists token,
                 truthy token = true /\ r = Ok token
                 /\ st1 = stored token (sent login_request dt st))).
Proof.
  unfold authenticate.
  unfold bind at 1. unfold gets at 1.
  destruct (cache_valid st) eqn:Hv.
  { intros E. inversion E. left. repeat split. }
  rewrite <- negb_andb.
  destruct (truthy CLIENT_ID && truthy CLIENT_SECRET) eqn:Hc; cbn [negb].
  2:{ intros E. inversion E. right. left. repeat split. }
  intros E. right. right. split; [reflexivity |]. split; [reflexivity |].
  revert E. unfold bind at 1. rewrite fetch_login. unfold transmit.
  destruct (network (calls st) login_request) as [[reason | s p] dt];
    cbn [outcome elapsed]; exists dt.
  { inversion E. left. split; [reflexivity |]. right. right. eexists. reflexivity. }
  revert E. unfold ok. cbn [status].
  destruct (success s) eqn:Hs; cbn [negb].
  2:{ unfold Response_text, consumeBody, bind; cbn [bodyUsed payload].
      destruct p as [errorText |]; cbn; intros E; inversion E; left;
        (split; [reflexivity |]).
      - left. exists s, errorText. now split.
      - right. right. eexists. reflexivity. }
  unfold Response_json, consumeBody; cbn [bodyUsed payload].
  destruct p as [src |].
  2:{ cbn. intros E. inversion E. left. split; [reflexivity |].
      right. right. eexists. reflexivity. }
  unfold bind at 1. unfold bind at 1. unfold ret at 1.
  destruct (JSON_parse_text src) as [data |].
  2:{ cbn. intros E. inversion E. left. split; [reflexivity |].
      right. right. eexists. reflexivity. }
  unfold ret at 1. unfold get_prop.
  destruct (nullish data).
  { cbn. intros E. inversion E. left. split; [reflexivity |].
    right. right. eexists. reflexivity. }
  unfold bind at 1. unfold ret at 1.
  destruct (truthy (prop data "token")) eqn:Ht.
  - unfold bind at 1. unfold ret at 1. rewrite Ht. cbn.
    intros E. inversion E. right. exists (prop data "token"). repeat split.
    assumption.
  - unfold bind at 1. unfold ret at 1.
    destruct (truthy (prop data "access_token")) eqn:Ha; cbn; intros E; inversion E.
    + right. exists (prop data "access_token"). repeat split. assumption.
    + left. split; [reflexivity |]. right. left. reflexivity.
Qed.

(** Every way [deposit] can end: a token that cannot be sent throws before
    any request; otherwise the request is sent, and then either a runtime
    error is thrown (never an [Error] of the handler's own), or the
    provider's data, which is not [null], is answered. *)
Lemma deposit_cases (ev : event) (token amount external_id payer : value)
    (st st1 : state) (r : result http_response) :
  deposit ev token amount external_id payer st = (r, st1) ->
  (sendable token = false /\ st1 = st /\ exists x, r = Throw (Raised x))
  \/ (sendable token = true
      /\ exists dt,
           st1 = sent (deposit_request ev (ToString token) amount external_id payer)
                   dt st
           /\ ((exists x, r = Throw (Raised x))
               \/ exists s data,
                    nullish data = false
                    /\ r = Ok (if success s
                               then mkHttp 200 (Some cors_headers) (pix_body data)
                               else mkHttp s (Some cors_headers) (refusal_body data)))).
Proof.
  intros H.
  destruct (sendable token) eqn:Hs.
  2:{ left. destruct (deposit_unsendable ev token amount external_id payer st Hs)
        as [x Hx].
      rewrite Hx in H. inversion H. split; [reflexivity |]. split; [reflexivity |].
      now exists x. }
  right. split; [reflexivity |].
  destruct (network (calls st)
              (deposit_request ev (ToString token) amount external_id payer))
    as [[reason | s [src |]] dt] eqn:Hn; exists dt.
  - rewrite (deposit_unreachable _ _ _ _ _ _ Hs _ _ Hn) in H. inversion H.
    split; [reflexivity |]. left. eexists. reflexivity.
  - destruct (JSON_parse_text src) as [data |] eqn:Hp.
    + destruct (nullish data) eqn:Hd.
      * rewrite (deposit_null _ _ _ _ _ _ Hs _ _ _ _ Hn Hp Hd) in H. inversion H.
        split; [reflexivity |]. left. eexists. reflexivity.
      * rewrite (deposit_answered _ _ _ _ _ _ Hs _ _ _ _ Hn Hp Hd) in H. inversion H.
        split; [reflexivity |]. right. exists s, data. now split.
    + rewrite (deposit_not_json _ _ _ _ _ _ Hs _ _ _ Hn Hp) in H. inversion H.
      split; [reflexivity |]. left. eexists. reflexivity.
  - rewrite (deposit_unreadable _ _ _ _ _ _ Hs _ _ Hn) in H. inversion H.
    split; [reflexivity |]. left. eexists. reflexivity.
Qed.

Lemma complete_not_nullish (v : value) : complete v = true -> nullish v = false.
Proof. destruct v; try reflexivity; discriminate. Qed.

(** Every way the [try] block can end. *)
Lemma process_cases (ev : event) (st st1 : state) (r : result http_response) :
  process ev st = (r, st1) ->
  (st1 = st
   /\ (r = Throw (Raised (SyntaxError_JSON (body_source ev)))
       /\ JSON_parse_text (body_source ev) = None
       \/ exists v, JSON_parse_text (body_source ev) = Some v
                    /\ (nullish v = true
                        /\ r = Throw (Raised (TypeError_nullish v "amount"))
                        \/ nullish v = false /\ complete v = false
                           /\ r = Ok incomplete)))
  \/ exists v,
       JSON_parse_text (body_source ev) = Some v /\ complete v = true
       /\ ((exists e, authenticate st = (Throw e, st1) /\ r = Throw e)
           \/ exists token st0,
                authenticate st = (Ok token, st0)
                /\ deposit ev token (prop v "amount") (prop v "external_id")
                     (prop v "payer") st0 = (r, st1)).
Proof.
  intros H.
  destruct (JSON_parse_text (body_source ev)) as [v |] eqn:Hp.
  2:{ rewrite (process_unparsable _ _ Hp) in H. inversion H.
      left. split; [reflexivity |]. left. now split. }
  destruct (nullish v) eqn:Hn.
  { rewrite (process_nullish _ _ _ Hp Hn) in H. inversion H.
    left. split; [reflexivity |]. right. exists v. split; [reflexivity |].
    left. now split. }
  destruct (complete v) eqn:Hc.
  2:{ rewrite (process_incomplete _ _ _ Hp Hn Hc) in H. inversion H.
      left. split; [reflexivity |]. right. exists v. split; [reflexivity |].
      right. split; [assumption |]. split; [assumption | reflexivity]. }
  right. exists v. split; [reflexivity |]. split; [assumption |].
  rewrite (process_valid _ _ _ Hp Hc) in H. unfold bind in H.
  destruct (authenticate st) as [[token | e] st0].
  - right. exists token, st0. now split.
  - inversion H. left. exists e. now split.
Qed.

(** ** The token cache over time *)

(** The token [authenticate] returns is truthy. *)
Lemma authenticate_token_truthy (st st1 : state) (token : value) :
  authenticate st = (Ok token, st1) -> truthy token = true /\ cachedToken st1 = token.
Proof.
  intros H. apply authenticate_cases in H.
  destruct H as [(Hv & Hr & ->) | [(_ & _ & Hr & _) | (Hv & Hc & dt & [(_ & Hr) | Hr])]].
  - inversion Hr; subst token. apply cache_valid_reusable in Hv.
    destruct Hv as [Ht He]. now split.
  - discriminate.
  - destruct Hr as [(s & x & _ & Hr) | [Hr | [x Hr]]]; discriminate.
  - destruct Hr as (tok & Ht & Hr & ->). inversion Hr; subst tok. now split.
Qed.

(** X1: the token [authenticate] returns is truthy and is the one in the
    cache afterwards, with an expiry [e] still ahead; an immediate second
    call returns it again without a request; so does a call at any later
    clock [t < e]; and at a clock [t >= e] a token is only ever returned
    after a new login request. *)
Theorem token_window (st st1 : state) (token : value) :
  authenticate st = (Ok token, st1) ->
  truthy token = true
  /\ cachedToken st1 = token
  /\ authenticate st1 = (Ok token, st1)
  /\ exists e,
       tokenExpiry st1 = Some e /\ (now st1 < e)%Z
       /\ forall t,
            ((t < e)%Z ->
             authenticate (at_clock t st1) = (Ok token, at_clock t st1))
            /\ ((e <= t)%Z ->
                forall token' st2,
                  authenticate (at_clock t st1) = (Ok token', st2) ->
                  calls st2 = login_request :: calls st1).
Proof.
  intros H.
  assert (Hpost : truthy token = true /\ cachedToken st1 = token
                  /\ exists e, tokenExpiry st1 = Some e /\ (now st1 < e)%Z).
  { apply authenticate_cases in H.
    destruct H as [(Hv & Hr & ->) | [(_ & _ & Hr & _) | (Hv & Hc & dt & [(_ & Hr) | Hr])]].
    - inversion Hr; subst token. apply cache_valid_reusable in Hv.
      destruct Hv as [Ht He]. repeat split; assumption.
    - discriminate.
    - destruct Hr as [(s & x & _ & Hr) | [Hr | [x Hr]]]; discriminate.
    - destruct Hr as (tok & Ht & Hr & ->). inversion Hr; subst tok.
      split; [assumption |]. split; [reflexivity |].
      eexists. split; [reflexivity |]. cbn. lia. }
  destruct Hpost as (Ht & Hc & e & He & Hlt).
  assert (Hreuse : forall t, (t < e)%Z ->
            authenticate (at_clock t st1) = (Ok token, at_clock t st1)).
  { intros t Hte. rewrite <- Hc. apply (authenticate_cached (at_clock t st1)).
    unfold cache_valid, before. cbn. rewrite Hc, Ht, He. now apply Z.ltb_lt. }
  split; [assumption |]. split; [assumption |]. split.
  - rewrite <- Hc. apply authenticate_cached.
    unfold cache_valid, before. rewrite Hc, Ht, He. now apply Z.ltb_lt.
  - exists e. split; [assumption |]. split; [assumption |].
    intros t. split; [now apply Hreuse |].
    intros Hge token' st2 H2.
    assert (Hv : cache_valid (at_clock t st1) = false).
    { unfold cache_valid, before. cbn. rewrite He.
      apply andb_false_intro2. now apply Z.ltb_ge. }
    destruct (authenticate_not_cached _ _ _ Hv H2) as [[x Hx] | [dt [Hcalls _]]].
    + discriminate.
    + exact Hcalls.
Qed.

(** X2: when [authenticate] throws, the cache was not valid, and the token,
    the expiry and the console are as before; either no request was sent,
    and the error is the one about the credentials, or exactly the login
    request was sent. *)
Theorem authenticate_failure_keeps_cache (st st1 : state) (e : exn) :
  authenticate st = (Throw e, st1) ->
  cache_valid st = false
  /\ cachedToken st1 = cachedToken st
  /\ tokenExpiry st1 = tokenExpiry st
  /\ console st1 = console st
  /\ (calls st1 = calls st /\ e = Error credentials_message
        /\ truthy CLIENT_ID && truthy CLIENT_SECRET = false
      \/ calls st1 = login_request :: calls st
         /\ truthy CLIENT_ID && truthy CLIENT_SECRET = true).
Proof.
  intros H. apply authenticate_cases in H.
  destruct H as [(Hv & Hr & _) | [(Hv & Hc & Hr & ->) | (Hv & Hc & dt & [(-> & Hr) | Hr])]].
  - discriminate.
  - inversion Hr. repeat split; try assumption. left. repeat split. assumption.
  - repeat split; try assumption. right. split; [reflexivity | assumption].
  - destruct Hr as (tok & _ & Hr & _). discriminate.
Qed.

(** ** Every run of the handler *)

(** Every run of the handler returns, in one of four ways. *)
Lemma handler_run (ev : event) (st : state) :
  exists r st',
    handler ev st = (Ok r, st')
    /\ (httpMethod ev <> "POST" /\ r = method_not_allowed /\ st' = st
        \/ httpMethod ev = "POST"
           /\ (r = incomplete /\ st' = st
               \/ (exists e st1,
                     caught ev st e st1
                     /\ r = internal_error (message e) /\ st' = reported e st1)
               \/ charged ev st r st')).
Proof.
  destruct (String.eqb_spec (httpMethod ev) "POST") as [Hm | Hm].
  2:{ exists method_not_allowed, st. split; [now apply handler_not_POST |].
      left. now repeat split. }
  destruct (process ev st) as [pr st1] eqn:Hp.
  pose proof (process_cases _ _ _ _ Hp) as Hc.
  destruct Hc as [(-> & [(-> & Hbad) | (v & Hv & [(Hn & ->) | (Hn & Hi & ->)])])
                 | (v & Hv & Hc & [(e & Ha & ->) | (token & st0 & Ha & Hd)])].
  - eexists _, _. split; [now apply handler_caught; eauto |].
    right. split; [assumption |]. right. left.
    eexists _, _. split; [| split; reflexivity]. left. split; [reflexivity |]. now left.
  - eexists _, _. split; [now apply handler_caught; eauto |].
    right. split; [assumption |]. right. left.
    eexists _, _. split; [| split; reflexivity]. left. split; [reflexivity |].
    right. exists v. now split.
  - exists incomplete, st. split; [now apply handler_returned |].
    right. split; [assumption |]. left. now split.
  - eexists _, _. split; [now apply handler_caught; eauto |].
    right. split; [assumption |]. right. left.
    eexists _, _. split; [| split; reflexivity]. right. left. exists v. now repeat split.
  - destruct (deposit_cases _ _ _ _ _ _ _ _ Hd)
      as [(Hs & -> & x & ->) | (Hs & dt & -> & [(x & ->) | (s & data & Hn & ->)])].
    + eexists _, _. split; [now apply handler_caught; eauto |].
      right. split; [assumption |]. right. left.
      eexists _, _. split; [| split; reflexivity]. right. right.
      exists v, token, st0, x. repeat split; try assumption. left. now split.
    + eexists _, _. split; [now apply handler_caught; eauto |].
      right. split; [assumption |]. right. left.
      eexists _, _. split; [| split; reflexivity]. right. right.
      exists v, token, st0, x. repeat split; try assumption.
      right. split; [assumption |]. now exists dt.
    + eexists _, _. split; [now apply handler_returned; eauto |].
      right. split; [assumption |]. right. right.
      exists v, token, st0, dt. repeat split; try assumption.
      exists s, data. now split.
Qed.

(** What [authenticate] does to the list of requests and to the cache. *)
Lemma authenticate_effect (st st1 : state) (r : result value) :
  authenticate st = (r, st1) ->
  console st1 = console st
  /\ (calls st1 = calls st
      /\ cachedToken st1 = cachedToken st /\ tokenExpiry st1 = tokenExpiry st
      /\ (cache_valid st = true \/ exists e, r = Throw e)
      \/ calls st1 = login_request :: calls st /\ cache_valid st = false
         /\ (cachedToken st1 = cachedToken st /\ tokenExpiry st1 = tokenExpiry st
             \/ exists e, tokenExpiry st1 = Some e /\ truthy (cachedToken st1) = true
                          /\ r = Ok (cachedToken st1))).
Proof.
  intros H. apply authenticate_cases in H.
  destruct H as [(Hv & Hr & ->) | [(Hv & Hc & Hr & ->) | (Hv & Hc & dt & [(-> & Hr) | Hr])]].
  - split; [reflexivity |]. left. repeat split. now left.
  - split; [reflexivity |]. left. repeat split. right. eexists. eassumption.
  - split; [reflexivity |]. right. repeat split; try assumption. left. now split.
  - destruct Hr as (tok & Ht & -> & ->). split; [reflexivity |].
    right. repeat split; try assumption. right.
    eexists. cbn. repeat split. assumption.
Qed.

(** X3: the handler keeps the invariant of the token cache (both variables
    [null], or a truthy token with an expiry), whatever the request and
    however the run ends; and when the cached token is still valid it leaves
    the token and the expiry exactly as they were. *)
Theorem handler_keeps_cache (ev : event) (st : state) :
  cache_wf st ->
  cache_wf (snd (handler ev st))
  /\ (cache_valid st = true ->
      cachedToken (snd (handler ev st)) = cachedToken st
      /\ tokenExpiry (snd (handler ev st)) = tokenExpiry st).
Proof.
  intros Hwf.
  assert (Hauth : forall r st1, authenticate st = (r, st1) ->
            cache_wf st1
            /\ (cache_valid st = true ->
                cachedToken st1 = cachedToken st /\ tokenExpiry st1 = tokenExpiry st)).
  { intros r st1 Ha. apply authenticate_effect in Ha.
    destruct Ha as (_ & [(_ & Hc & He & _) | (_ & Hv & [(Hc & He) | (e & He & Ht & _)])]).
    - split; [| now intros _]. unfold cache_wf in *. now rewrite He, Hc.
    - split; [| now intros _]. unfold cache_wf in *. now rewrite He, Hc.
    - split; [| intros Hv'; congruence]. unfold cache_wf. now rewrite He. }
  destruct (handler_run ev st) as (r & st' & -> & Hrun). cbn [snd].
  destruct Hrun as [(_ & _ & ->) | (_ & [(_ & ->) | [(e & st1 & Hc & _ & ->) | Hch]])].
  - split; [assumption | now intros _].
  - split; [assumption | now intros _].
  - destruct Hc as [(-> & _) | [(v & _ & _ & Ha)
                                | (v & token & st0 & x & _ & _ & Ha & _
                                   & [(_ & ->) | (_ & dt & ->)])]].
    + split; [assumption | now intros _].
    + exact (Hauth _ _ Ha).
    + exact (Hauth _ _ Ha).
    + exact (Hauth _ _ Ha).
  - destruct Hch as (v & token & st0 & dt & _ & _ & Ha & _ & -> & _).
    exact (Hauth _ _ Ha).
Qed.

Lemma authenticate_Ok_cases (st st0 : state) (token : value) :
  authenticate st = (Ok token, st0) ->
  truthy token = true
  /\ (cache_valid st = true /\ token = cachedToken st /\ st0 = st
      \/ cache_valid st = false
         /\ exists dt, st0 = stored token (sent login_request dt st)).
Proof.
  intros H. split; [exact (proj1 (authenticate_token_truthy st st0 token H)) |].
  apply authenticate_cases in H.
  destruct H as [(Hv & Hr & ->) | [(_ & _ & Hr & _) | (Hv & Hc & dt & [(_ & Hr) | Hr])]].
  - inversion Hr. left. now repeat split.
  - discriminate.
  - destruct Hr as [(s & x & _ & Hr) | [Hr | [x Hr]]]; discriminate.
  - destruct Hr as (tok & Ht & Hr & ->). inversion Hr; subst tok.
    right. split; [assumption |]. now exists dt.
Qed.

(** ** The requests a run sends *)

(** X4: a run of the handler sends nothing, or the login request alone, or
    the deposit request, preceded by the login request exactly when the
    cached token was not valid.  A deposit request is only sent for a [POST]
    whose order is complete, and it carries a truthy token: the cached one
    when that was valid. *)
Theorem handler_requests (ev : event) (st : state) :
  calls (snd (handler ev st)) = calls st
  \/ (calls (snd (handler ev st)) = login_request :: calls st
      /\ cache_valid st = false)
  \/ exists v token,
       httpMethod ev = "POST"
       /\ JSON_parse_text (body_source ev) = Some v /\ complete v = true
       /\ truthy token = true
       /\ (calls (snd (handler ev st)) = deposit_of ev token v :: calls st
           /\ cache_valid st = true /\ token = cachedToken st
           \/ calls (snd (handler ev st))
              = deposit_of ev token v :: login_request :: calls st
              /\ cache_valid st = false).
Proof.
  assert (Hsent : forall v token st0 dt,
            authenticate st = (Ok token, st0) ->
            truthy token = true
            /\ (calls (sent (deposit_of ev token v) dt st0)
                = deposit_of ev token v :: calls st
                /\ cache_valid st = true /\ token = cachedToken st
                \/ calls (sent (deposit_of ev token v) dt st0)
                   = deposit_of ev token v :: login_request :: calls st
                   /\ cache_valid st = false)).
  { intros v token st0 dt Ha.
    destruct (authenticate_Ok_cases _ _ _ Ha) as (Ht & [(Hcv & Htok & ->) | (Hcv & dt' & ->)]).
    - split; [assumption |]. left. now repeat split.
    - split; [assumption |]. right. now split. }
  destruct (handler_run ev st) as (r & st' & -> & Hrun). cbn [snd].
  destruct Hrun as [(_ & _ & ->) | (Hm & [(_ & ->) | [(e & st1 & Hc & _ & ->) | Hch]])].
  - now left.
  - now left.
  - destruct Hc as [(-> & _) | [(v & _ & _ & Ha)
                                | (v & token & st0 & x & Hv & Hc & Ha & _
                                   & [(_ & ->) | (_ & dt & ->)])]].
    + now left.
    + apply authenticate_effect in Ha.
      destruct Ha as (_ & [(Hcalls & _) | (Hcalls & Hcv & _)]).
      * now left.
      * right. left. now split.
    + apply authenticate_effect in Ha.
      destruct Ha as (_ & [(Hcalls & _) | (Hcalls & Hcv & _)]).
      * now left.
      * right. left. now split.
    + right. right. exists v, token.
      destruct (Hsent v token st0 dt Ha) as [Ht Hcalls].
      repeat split; try assumption.
  - destruct Hch as (v & token & st0 & dt & Hv & Hc & Ha & _ & -> & _).
    right. right. exists v, token.
    destruct (Hsent v token st0 dt Ha) as [Ht Hcalls].
    repeat split; try assumption.
Qed.

(** ** The shape of every response *)

(** X5: whatever the request and the environment, the handler returns a
    response (its promise never rejects) whose body is a JSON object; the
    status is [200] or lies outside 200-299, so a provider's [201] is
    answered [200]; and the body has an [error] member exactly when the
    status is not [200]. *)
Theorem handler_response_shape (ev : event) (st : state) :
  exists r st',
    handler ev st = (Ok r, st')
    /\ (exists ms, resp_body r = Document (VObj ms))
    /\ (statusCode r = 200%N \/ success (statusCode r) = false)
    /\ has_member "error" (resp_body r) = negb (statusCode r =? 200)%N.
Proof.
  destruct (handler_run ev st) as (r & st' & Hh & Hrun).
  exists r, st'. split; [assumption |]. clear Hh.
  destruct Hrun as [(_ & -> & _) | (_ & [(-> & _) | [(e & st1 & _ & -> & _) | Hch]])].
  - split; [eexists; reflexivity |]. split; [now right | reflexivity].
  - split; [eexists; reflexivity |]. split; [now right | reflexivity].
  - split; [eexists; reflexivity |]. split; [now right | reflexivity].
  - destruct Hch as (v & token & st0 & dt & _ & _ & _ & _ & _ & s & data & Hn & ->).
    destruct (success s) eqn:Hs; cbn [statusCode resp_body].
    + split; [eexists; reflexivity |]. split; [now left |].
      unfold has_member, pix_body, JSON_stringify.
      rewrite lookup_serialize_members; [reflexivity |].
      cbn. repeat constructor; cbn; intuition discriminate.
    + split; [eexists; reflexivity |]. split; [now right |].
      assert (Hne : (s =? 200)%N = false).
      { destruct (N.eqb_spec s 200) as [-> | _]; [discriminate | reflexivity]. }
      rewrite Hne. cbn [negb].
      destruct (truthy_serialized _ (deposit_error_truthy data)) as [j Hj].
      unfold has_member, refusal_body, JSON_stringify. cbn [serialize_members].
      now rewrite Hj.
Qed.

(** X6: a run writes to the console at most once, and only from the
    top-level [catch]: when it does, the answer is the [500] one, and the
    line written is the label followed by the very text the response
    carries as [details]. *)
Theorem handler_console (ev : event) (st : state) :
  console (snd (handler ev st)) = console st
  \/ exists details,
       fst (handler ev st) = Ok (internal_error details)
       /\ console (snd (handler ev st))
          = ("Erro na Netlify Function: " ++ details) :: console st.
Proof.
  destruct (handler_run ev st) as (r & st' & -> & Hrun). cbn [fst snd].
  destruct Hrun as [(_ & _ & ->) | (_ & [(_ & ->) | [(e & st1 & Hc & -> & ->) | Hch]])].
  - now left.
  - now left.
  - right. exists (message e). split; [reflexivity |].
    assert (Hcons : console st1 = console st).
    { destruct Hc as [(-> & _) | [(v & _ & _ & Ha)
                                  | (v & token & st0 & x & _ & _ & Ha & _
                                     & [(_ & ->) | (_ & dt & ->)])]].
      - reflexivity.
      - now apply authenticate_effect in Ha.
      - now apply authenticate_effect in Ha.
      - apply authenticate_effect in Ha. cbn. tauto. }
    cbn. now rewrite Hcons.
  - left. destruct Hch as (v & token & st0 & dt & _ & _ & Ha & _ & -> & _).
    apply authenticate_effect in Ha. cbn. tauto.
Qed.

(** ** The validation, exactly *)

(** X7: for a [POST] whose body parses to a value other than [null], the
    handler gives the [400] answer of the validation exactly when one of
    [amount], [external_id], [payer] is falsy; a field that is present but
    [0], empty, [false] or [null] is rejected like a missing one, and then
    nothing else happens: the state is as before. *)
Theorem validation_rejects_falsy (ev : event) (st : state) (v : value) :
  httpMethod ev = "POST" ->
  JSON_parse_text (body_source ev) = Some v ->
  nullish v = false ->
  (fst (handler ev st) = Ok incomplete <-> complete v = false)
  /\ (complete v = false -> snd (handler ev st) = st)
  /\ (forall k,
        In k ["amount"; "external_id"; "payer"] ->
        In (prop v k) [VUndefined; VNull; VBool false; VStr ""; VNum 0%float] ->
        complete v = false).
Proof.
  intros Hm Hv Hn. split; [split |].
  - intros H. destruct (complete v) eqn:Hc; [exfalso | reflexivity].
    destruct (handler ev st) as [r st'] eqn:Hh. cbn [fst] in H. subst r.
    rewrite (handler_POST _ _ Hm) in Hh. unfold try_catch in Hh.
    destruct (process ev st) as [[r | e] s'] eqn:Hp; [| discriminate].
    inversion Hh; subst r s'. clear Hh.
    rewrite (process_valid _ _ _ Hv Hc) in Hp.
    apply bind_Ok_inv in Hp. destruct Hp as (token & s2 & _ & Hd).
    apply deposit_Ok_inv in Hd. destruct Hd as [H200 | Hdet]; discriminate.
  - intros Hc.
    now rewrite (handler_returned _ _ _ _ Hm (process_incomplete _ _ _ Hv Hn Hc)).
  - split.
    + intros Hc.
      now rewrite (handler_returned _ _ _ _ Hm (process_incomplete _ _ _ Hv Hn Hc)).
    + intros k Hk Hf. unfold complete.
      assert (Ht : truthy (prop v k) = false).
      { cbn in Hf. destruct Hf as [<- | [<- | [<- | [<- | [<- | []]]]]]; reflexivity. }
      cbn in Hk. destruct Hk as [<- | [<- | [<- | []]]]; rewrite Ht.
      * reflexivity.
      * now rewrite andb_false_r.
      * now rewrite andb_false_r.
Qed.

(** ** Failures of the authentication, as the caller sees them *)

Lemma env_value_falsy (x : option string) :
  x = None \/ x = Some "" -> truthy (env_value x) = false.
Proof. intros [-> | ->]; reflexivity. Qed.

(** X8: when no valid token is cached and one of the two environment
    variables is unset or empty, a complete order is answered [500] with the
    text about the credentials as [details], and no request is sent: the
    state only gains the console line. *)
Theorem missing_credentials_is_500 (ev : event) (st : state) (v : value) :
  httpMethod ev = "POST" ->
  JSON_parse_text (body_source ev) = Some v ->
  complete v = true ->
  cache_valid st = false ->
  INSTAPAY_CLIENT_ID = None \/ INSTAPAY_CLIENT_ID = Some ""
    \/ INSTAPAY_CLIENT_SECRET = None \/ INSTAPAY_CLIENT_SECRET = Some "" ->
  handler ev st
  = (Ok (internal_error credentials_message),
     logged ("Erro na Netlify Function: " ++ credentials_message) st).
Proof.
  intros Hm Hv Hc Hcv Henv.
  assert (Hcred : truthy CLIENT_ID && truthy CLIENT_SECRET = false).
  { unfold CLIENT_ID, CLIENT_SECRET.
    destruct Henv as [H | [H | [H | H]]].
    - rewrite (env_value_falsy INSTAPAY_CLIENT_ID); [reflexivity | now left].
    - rewrite (env_value_falsy INSTAPAY_CLIENT_ID); [reflexivity | now right].
    - rewrite (env_value_falsy INSTAPAY_CLIENT_SECRET); [apply andb_false_r | now left].
    - rewrite (env_value_falsy INSTAPAY_CLIENT_SECRET); [apply andb_false_r | now right]. }
  destruct (authenticate st) as [r st1] eqn:Ha.
  pose proof (authenticate_cases _ _ _ Ha) as Hcases.
  destruct Hcases as [(Hv' & _) | [(_ & _ & -> & ->) | (_ & Hc' & _)]]; try congruence.
  exact (handler_authentication_failed ev st st v _ Hm Hv Hc Ha).
Qed.

(** X9: when the provider refuses the login with a status [s] outside
    200-299 and a body [errorText], a complete order is answered [500] with
    [Falha na autenticação (Status s): errorText] as [details]; only the
    login request was sent, no deposit request, and the cache is as
    before. *)
Theorem refused_login_is_500 (ev : event) (st : state) (v : value)
    (s : N) (errorText : string) (dt : Z) :
  httpMethod ev = "POST" ->
  JSON_parse_text (body_source ev) = Some v ->
  complete v = true ->
  cache_valid st = false ->
  truthy CLIENT_ID && truthy CLIENT_SECRET = true ->
  network (calls st) login_request = mkExchange (Resolved s (Some errorText)) dt ->
  success s = false ->
  exists st',
    handler ev st = (Ok (internal_error (refused_message s errorText)), st')
    /\ calls st' = login_request :: calls st
    /\ cachedToken st' = cachedToken st
    /\ tokenExpiry st' = tokenExpiry st.
Proof.
  intros Hm Hv Hc Hcv Hcred Hn Hs.
  pose proof (authenticate_refused st s errorText dt Hcv Hcred Hn Hs) as Ha.
  eexists. split.
  - exact (handler_authentication_failed ev st _ v _ Hm Hv Hc Ha).
  - repeat split.
Qed.

(** ** What is sent to the provider *)

(** X10: the deposit request built for a complete order goes to the
    deposit endpoint with the token's text as a [Bearer] credential, and its
    JSON body has exactly four members: [amount], [external_id] and [payer],
    each being what [JSON.stringify] writes for the order's own field (the
    field itself, except that a number parsed as an infinity, such as an
    [amount] of [1e400], is sent as [null], and [-0] as [0]), and
    [clientCallbackUrl], the webhook path on the host named by the request's
    [host] header (on [undefined] when there is no such header).  No other
    member of the order is forwarded. *)
Theorem deposit_request_content (ev : event) (token v : value) :
  complete v = true ->
  exists amount external_id payer,
    serialize (prop v "amount") = Some amount
    /\ serialize (prop v "external_id") = Some external_id
    /\ serialize (prop v "payer") = Some payer
    /\ (forall x, prop v "amount" = VNum x -> PrimFloat.is_infinity x = true ->
        amount = VNull)
    /\ url (deposit_of ev token v) = "https://api.instapaybr.com/api/payments/deposit"
    /\ lookup "Authorization" (req_headers (deposit_of ev token v))
       = Some ("Bearer " ++ ToString token)
    /\ req_body (deposit_of ev token v)
       = Document
           (VObj [ ("amount", amount);
                   ("external_id", external_id);
                   ("clientCallbackUrl",
                     VStr ("https://"
                           ++ match lookup "host" (headers ev) with
                              | Some h => h
                              | None => "undefined"
                              end
                           ++ "/.netlify/functions/pix-webhook"));
                   ("payer", payer) ]).
Proof.
  intros Hc. unfold complete in Hc.
  apply andb_prop in Hc. destruct Hc as [Hc Hp].
  apply andb_prop in Hc. destruct Hc as [Ha Hx].
  destruct (truthy_serialized _ Ha) as [a Hsa].
  destruct (truthy_serialized _ Hx) as [x Hsx].
  destruct (truthy_serialized _ Hp) as [p Hsp].
  exists a, x, p.
  split; [assumption |]. split; [assumption |]. split; [assumption |].
  split.
  { intros y Hy Hinf. rewrite Hy in Hsa. cbn [serialize] in Hsa.
    rewrite Hinf, orb_true_r in Hsa. now inversion Hsa. }
  split; [reflexivity |]. split; [reflexivity |].
  unfold deposit_of, deposit_request, JSON_stringify. cbn [req_body serialize_members].
  now rewrite Hsa, Hsx, Hsp.
Qed.

(** ** The errors that reach the top-level [catch] *)

(** X11: an error thrown by the [try] block is a runtime error or one of
    the three errors of [authenticate] (credentials, refused login, no
    token); it is never the error the inner [catch] of the deposit is
    written to throw, because the [text()] that should fill it in is a
    second read of the body and throws first. *)
Theorem inner_catch_error_is_never_reported (ev : event) (st st1 : state) (e : exn) :
  process ev st = (Throw e, st1) ->
  ((exists x, e = Raised x)
   \/ e = Error credentials_message
   \/ (exists s errorText, success s = false /\ e = Error (refused_message s errorText))
   \/ e = Error no_token_message)
  /\ forall s errorText, e <> Error (not_json_message s errorText).
Proof.
  intros H.
  assert (Hkind : (exists x, e = Raised x)
                  \/ e = Error credentials_message
                  \/ (exists s errorText,
                        success s = false /\ e = Error (refused_message s errorText))
                  \/ e = Error no_token_message).
  { apply process_cases in H.
    destruct H as [(_ & [(Hr & _) | (v & _ & [(_ & Hr) | (_ & _ & Hr)])])
                  | (v & _ & _ & [(e' & Ha & Hr) | (token & st0 & _ & Hd)])].
    - inversion Hr. left. eexists. reflexivity.
    - inversion Hr. left. eexists. reflexivity.
    - discriminate.
    - inversion Hr; subst e'. apply authenticate_cases in Ha.
      destruct Ha as [(_ & Hx & _) | [(_ & _ & Hx & _) | (_ & _ & dt & [(_ & Hx) | Hx])]].
      + discriminate.
      + inversion Hx. right. now left.
      + destruct Hx as [(s & t & Hs & Hx) | [Hx | [x Hx]]]; inversion Hx.
        * right. right. left. exists s, t. now split.
        * right. right. now right.
        * left. eexists. reflexivity.
      + destruct Hx as (tok & _ & Hx & _). discriminate.
    - apply deposit_cases in Hd.
      destruct Hd as [(_ & _ & x & Hx)
                     | (_ & dt & _ & [(x & Hx) | (s & data & _ & Hx)])].
      + inversion Hx. left. eexists. reflexivity.
      + inversion Hx. left. eexists. reflexivity.
      + discriminate. }
  split; [exact Hkind |].
  intros s errorText Heq.
  destruct Hkind as [(x & ->) | [-> | [(s' & t' & _ & ->) | ->]]].
  - discriminate.
  - inversion Heq.
  - inversion Heq.
  - inversion Heq.
Qed.

(** ** Whole runs *)

(** X12: a complete order that finds no valid token, with both credentials
    set, a login answered by a token that converts to a legal header value
    and a deposit answered by JSON data other than [null]: the handler logs
    in once, stores the token until 55 minutes after the login answer, sends
    the deposit with that token, and
    answers [200] with the trimmed data when the deposit status is in
    200-299 and that status with the forwarded error otherwise. *)
Theorem charge_from_cold_start (ev : event) (st : state) (v data charge : value)
    (s s' : N) (src src' : string) (dt dt' : Z) :
  httpMethod ev = "POST" ->
  JSON_parse_text (body_source ev) = Some v ->
  complete v = true ->
  cache_valid st = false ->
  truthy CLIENT_ID && truthy CLIENT_SECRET = true ->
  network (calls st) login_request = mkExchange (Resolved s (Some src)) dt ->
  success s = true ->
  JSON_parse_text src = Some data ->
  truthy (token_of data) = true ->
  sendable (token_of data) = true ->
  network (login_request :: calls st) (deposit_of ev (token_of data) v)
    = mkExchange (Resolved s' (Some src')) dt' ->
  JSON_parse_text src' = Some charge ->
  nullish charge = false ->
  exists st',
    handler ev st
    = (Ok (if success s'
           then mkHttp 200 (Some cors_headers) (pix_body charge)
           else mkHttp s' (Some cors_headers) (refusal_body charge)), st')
    /\ calls st' = deposit_of ev (token_of data) v :: login_request :: calls st
    /\ cachedToken st' = token_of data
    /\ tokenExpiry st' = Some (now st + dt + 55 * 60 * 1000)%Z
    /\ now st' = (now st + dt + dt')%Z
    /\ console st' = console st.
Proof.
  intros Hm Hv Hc Hcv Hcred Hn Hs Hp Ht Hsend Hn' Hp' Hnn.
  assert (Hd : nullish data = false).
  { destruct data; try reflexivity; discriminate. }
  pose proof (authenticate_login st s src data dt Hcv Hcred Hn Hs Hp) as Ha.
  rewrite Hd, Ht in Ha.
  eexists. split.
  - apply handler_returned; [assumption |].
    rewrite (process_valid _ _ _ Hv Hc). rewrite (bind_Ok _ _ _ _ _ Ha).
    apply (deposit_answered _ _ _ _ _ _ Hsend s' src' charge dt');
      [exact Hn' | assumption ..].
  - cbn. repeat split.
Qed.

(** X13: after a run that answered [200], the token that run obtained from
    [authenticate] and sent in its deposit request is the one in the cache,
    with an expiry [e]; and any request handled at a clock before [e] sends
    no login request: it sends nothing, or only a deposit request carrying
    that same token. *)
Theorem next_charge_reuses_token (ev : event) (st st1 : state) (r : http_response) :
  handler ev st = (Ok r, st1) ->
  statusCode r = 200%N ->
  exists e v st0 rest,
    authenticate st = (Ok (cachedToken st1), st0)
    /\ calls st1 = deposit_of ev (cachedToken st1) v :: rest
    /\ tokenExpiry st1 = Some e
    /\ truthy (cachedToken st1) = true
    /\ forall t ev',
         (t < e)%Z ->
         calls (snd (handler ev' (at_clock t st1))) = calls st1
         \/ exists v',
              calls (snd (handler ev' (at_clock t st1)))
              = deposit_of ev' (cachedToken st1) v' :: calls st1.
Proof.
  intros Hh H200.
  destruct (handler_run ev st) as (r0 & st0 & Hh0 & Hrun).
  rewrite Hh in Hh0. inversion Hh0; subst r0 st0. clear Hh0.
  destruct Hrun as [(_ & -> & _) | (_ & [(-> & _) | [(x & s & _ & -> & _) | Hch]])];
    try discriminate.
  destruct Hch as (v & token & sa & dt & _ & _ & Ha & _ & -> & _).
  destruct (authenticate_token_truthy _ _ _ Ha) as [Ht Hc].
  assert (He : exists e, tokenExpiry sa = Some e).
  { pose proof Ha as Ha0. apply authenticate_Ok_cases in Ha0.
    destruct Ha0 as (_ & [(Hv & _ & ->) | (_ & dt0 & ->)]).
    - apply cache_valid_reusable in Hv. destruct Hv as (_ & e & He & _). now exists e.
    - eexists. reflexivity. }
  destruct He as [e He]. exists e, v, sa, (calls sa).
  cbn [tokenExpiry cachedToken calls sent]. rewrite Hc.
  split; [assumption |]. split; [reflexivity |].
  split; [assumption |]. split; [assumption |].
  intros t ev' Hlt.
  set (st2 := at_clock t (sent (deposit_of ev token v) dt sa)).
  assert (Hv2 : cache_valid st2 = true).
  { unfold cache_valid, before, st2. cbn. rewrite Hc, Ht, He. now apply Z.ltb_lt. }
  assert (Hauth : forall r2 s2, authenticate st2 = (r2, s2) ->
            r2 = Ok token /\ s2 = st2).
  { intros r2 s2 H2. rewrite (authenticate_cached st2 Hv2) in H2.
    inversion H2. split; [| reflexivity]. unfold st2. cbn. now rewrite Hc. }
  destruct (handler_run ev' st2) as (r' & st' & -> & Hrun). cbn [snd].
  destruct Hrun as [(_ & _ & ->) | (_ & [(_ & ->) | [(x & s & Hc' & _ & ->) | Hch]])].
  - now left.
  - now left.
  - destruct Hc' as [(-> & _) | [(v' & _ & _ & Ha')
                                 | (v' & token' & s0 & y & _ & _ & Ha' & _
                                    & [(_ & ->) | (_ & dt0 & ->)])]].
    + now left.
    + destruct (Hauth _ _ Ha') as [Hbad _]. discriminate.
    + destruct (Hauth _ _ Ha') as [_ ->]. now left.
    + destruct (Hauth _ _ Ha') as [Hr ->]. inversion Hr; subst token'.
      right. now exists v'.
  - destruct Hch as (v' & token' & s0 & dt0 & _ & _ & Ha' & _ & -> & _).
    destruct (Hauth _ _ Ha') as [Hr ->]. inversion Hr; subst token'.
    right. now exists v'.
Qed.

End Outcomes.

(** ** The further properties at concrete inputs *)

(** From a cold start the login yields [jwt], cached until [3301120]. *)
Lemma token_window_witness :
  truthy (VStr "jwt") = true
  /\ cachedToken (snd (authenticate (env := accepting) cold)) = VStr "jwt"
  /\ authenticate (env := accepting) (snd (authenticate (env := accepting) cold))
     = (Ok (VStr "jwt"), snd (authenticate (env := accepting) cold))
  /\ exists e,
       tokenExpiry (snd (authenticate (env := accepting) cold)) = Some e
       /\ (now (snd (authenticate (env := accepting) cold)) < e)%Z
       /\ forall t,
            ((t < e)%Z ->
             authenticate (env := accepting)
               (at_clock t (snd (authenticate (env := accepting) cold)))
             = (Ok (VStr "jwt"),
                at_clock t (snd (authenticate (env := accepting) cold))))
            /\ ((e <= t)%Z ->
                forall token' st2,
                  authenticate (env := accepting)
                    (at_clock t (snd (authenticate (env := accepting) cold)))
                  = (Ok token', st2) ->
                  calls st2
                  = login_request (env := accepting)
                    :: calls (snd (authenticate (env := accepting) cold))).
Proof.
  apply (token_window (env := accepting) cold
           (snd (authenticate (env := accepting) cold)) (VStr "jwt")).
  vm_compute. reflexivity.
Defined.

(** With the provider offline the login fails and the cold cache stays
    cold. *)
Lemma authenticate_failure_keeps_cache_witness :
  cachedToken (snd (authenticate (env := offline) cold)) = VNull
  /\ tokenExpiry (snd (authenticate (env := offline) cold)) = None.
Proof.
  pose proof (authenticate_failure_keeps_cache (env := offline) cold
                (snd (authenticate (env := offline) cold))
                (Raised (FetchError_request "https://api.instapaybr.com/api/auth/login"
                           "ECONNREFUSED"))) as H.
  assert (Hrun : authenticate (env := offline) cold
                 = (Throw (Raised (FetchError_request
                                     "https://api.instapaybr.com/api/auth/login"
                                     "ECONNREFUSED")),
                    snd (authenticate (env := offline) cold))).
  { vm_compute. reflexivity. }
  destruct (H Hrun) as (_ & Hc & He & _). split; [exact Hc | exact He].
Defined.

(** The cold state satisfies the invariant, and so does the state after a
    charge. *)
Lemma handler_keeps_cache_witness :
  cache_wf (snd (handler (env := accepting) (post order_source) cold)).
Proof.
  apply (proj1 (handler_keeps_cache (env := accepting) (post order_source) cold
                  eq_refl)).
Defined.

(** An order whose [amount] is [0] is answered [400], untouched state. *)
Lemma validation_rejects_falsy_witness :
  fst (handler (env := offline') (post free_order_source) cold) = Ok incomplete
  /\ snd (handler (env := offline') (post free_order_source) cold) = cold.
Proof.
  pose proof (validation_rejects_falsy (env := offline') (post free_order_source) cold
                free_order eq_refl eq_refl eq_refl) as (Hiff & Hst & Hfalsy).
  assert (Hc : complete free_order = false).
  { apply (Hfalsy "amount"); [left; reflexivity |].
    right. right. right. right. left. reflexivity. }
  split; [now apply Hiff | now apply Hst].
Defined.

(** With an empty secret a complete order is answered [500] and nothing is
    sent. *)
Lemma missing_credentials_is_500_witness :
  handler (env := unconfigured) (post order_source) cold
  = (Ok (internal_error credentials_message),
     logged ("Erro na Netlify Function: " ++ credentials_message) cold).
Proof.
  apply (missing_credentials_is_500 (env := unconfigured) (post order_source) cold order).
  - reflexivity.
  - vm_compute. reflexivity.
  - reflexivity.
  - reflexivity.
  - right. right. right. reflexivity.
Defined.

(** A login refused with [401] and the body [denied]. *)
Lemma refused_login_is_500_witness :
  exists st',
    handler (env := rejecting) (post order_source) cold
    = (Ok (internal_error "Falha na autenticação (Status 401): denied"), st')
    /\ calls st' = login_request (env := rejecting) :: calls cold
    /\ cachedToken st' = cachedToken cold
    /\ tokenExpiry st' = tokenExpiry cold.
Proof.
  apply (refused_login_is_500 (env := rejecting) (post order_source) cold order
           401%N "denied" 120%Z).
  - reflexivity.
  - vm_compute. reflexivity.
  - reflexivity.
  - reflexivity.
  - reflexivity.
  - reflexivity.
  - reflexivity.
Defined.

(** The deposit request built for the sample order. *)
Lemma deposit_request_content_witness :
  req_body (deposit_of (env := accepting) (post order_source) (VStr "jwt") order)
  = Document
      (VObj [ ("amount", VNum 10%float);
              ("external_id", VStr "abc");
              ("clientCallbackUrl",
                VStr "https://shop.example/.netlify/functions/pix-webhook");
              ("payer", VObj []) ]).
Proof.
  destruct (deposit_request_content (env := accepting) (post order_source)
              (VStr "jwt") order eq_refl)
    as (a & x & p & Ha & Hx & Hp & _ & _ & _ & Hbody).
  vm_compute in Ha, Hx, Hp. inversion Ha. inversion Hx. inversion Hp. subst a x p.
  exact Hbody.
Defined.

(** A deposit answer that is not JSON: the error that reaches the top-level
    [catch] is the TypeError of the second read. *)
Lemma inner_catch_error_is_never_reported_witness :
  (exists x,
     Raised (TypeError_body_used "https://api.instapaybr.com/api/payments/deposit")
     = Raised x)
  \/ Raised (TypeError_body_used "https://api.instapaybr.com/api/payments/deposit")
     = Error credentials_message
  \/ (exists s errorText,
        success s = false
        /\ Raised (TypeError_body_used "https://api.instapaybr.com/api/payments/deposit")
           = Error (refused_message (env := accepting) s errorText))
  \/ Raised (TypeError_body_used "https://api.instapaybr.com/api/payments/deposit")
     = Error no_token_message.
Proof.
  apply (proj1 (inner_catch_error_is_never_reported
                  (env := sample_env (answers 200 login_source) (answers 502 "Bad Gateway"))
                  (post order_source) cold
                  (snd (process (env := sample_env (answers 200 login_source)
                                           (answers 502 "Bad Gateway"))
                          (post order_source) cold))
                  (Raised (TypeError_body_used
                             "https://api.instapaybr.com/api/payments/deposit"))
                  eq_refl)).
Defined.

(** The sample charge, from the cold start. *)
Lemma charge_from_cold_start_witness :
  exists st',
    handler (env := accepting) (post order_source) cold
    = (Ok (mkHttp 200 (Some cors_headers) (pix_body charge)), st')
    /\ calls st'
       = deposit_of (env := accepting) (post order_source) (VStr "jwt") order
         :: login_request (env := accepting) :: calls cold
    /\ cachedToken st' = VStr "jwt"
    /\ tokenExpiry st' = Some 3301120%Z
    /\ now st' = 1240%Z
    /\ console st' = console cold.
Proof.
  apply (charge_from_cold_start (env := accepting) (post order_source) cold
           order login_data charge 200%N 200%N login_source charge_source 120%Z 120%Z).
  - reflexivity.
  - vm_compute. reflexivity.
  - reflexivity.
  - reflexivity.
  - reflexivity.
  - reflexivity.
  - reflexivity.
  - vm_compute. reflexivity.
  - reflexivity.
  - reflexivity.
  - reflexivity.
  - vm_compute. reflexivity.
  - reflexivity.
Defined.

(** After the sample charge, a later request before the expiry logs in no
    more. *)
Lemma next_charge_reuses_token_witness :
  exists e v st0 rest,
    authenticate (env := accepting) cold
    = (Ok (cachedToken (snd (handler (env := accepting) (post order_source) cold))), st0)
    /\ calls (snd (handler (env := accepting) (post order_source) cold))
       = deposit_of (env := accepting) (post order_source)
           (cachedToken (snd (handler (env := accepting) (post order_source) cold))) v
         :: rest
    /\ tokenExpiry (snd (handler (env := accepting) (post order_source) cold)) = Some e
    /\ truthy (cachedToken (snd (handler (env := accepting) (post order_source) cold)))
       = true
    /\ forall t ev',
         (t < e)%Z ->
         calls (snd (handler (env := accepting) ev'
                       (at_clock t (snd (handler (env := accepting)
                                           (post order_source) cold)))))
         = calls (snd (handler (env := accepting) (post order_source) cold))
         \/ exists v',
              calls (snd (handler (env := accepting) ev'
                            (at_clock t (snd (handler (env := accepting)
                                                (post order_source) cold)))))
              = deposit_of (env := accepting) ev'
                  (cachedToken (snd (handler (env := accepting)
                                       (post order_source) cold))) v'
                :: calls (snd (handler (env := accepting) (post order_source) cold)).
Proof.
  apply (next_charge_reuses_token (env := accepting) (post order_source) cold
           (snd (handler (env := accepting) (post order_source) cold))
           (mkHttp 200 (Some cors_headers) (pix_body charge))).
  - vm_compute. reflexivity.
  - reflexivity.
Defined.
